(** * QuickGame C++ wrapper layer: a shallow embedding

    The header wraps the C engine API ("QuickGame") in free functions and
    three classes (Mesh, Texture, Sprite).  The engine itself is external:
    here it is a parameter, a function that answers every entry point from
    the current world.  Each wrapper is a computation in a small monad that
    threads the object's fields, the world (engine-owned memory) and the
    trace of engine calls made, and that ends normally, by a thrown
    [std::runtime_error], or in a fault (undefined behaviour: a null or
    dangling pointer was dereferenced). *)

From Stdlib Require Import ZArith NArith Bool String List Lia.
From stdpp Require Import base option gmap.
Import ListNotations.

Local Open Scope string_scope.
Local Open Scope N_scope.

(** ** Scalar types of the engine header *)

(** Pointers and opaque handles are addresses; [NULL] is address 0. *)
Definition ptr : Type := N.
Definition NULL : ptr := 0.

(** An [f32] is carried as its IEEE-754 binary32 bit pattern: the wrappers
    only move such values, they never compute on them.  The literal [0]
    converted to [f32] is +0.0, bit pattern 0. *)
Definition f32 : Type := Z.
Definition f32_of_zero : f32 := 0%Z.

Record QGVector2 : Type := mkVector2 { x : f32; y : f32 }.

Record QGTransform2D : Type := mkTransform2D {
  position : QGVector2;
  rotation : f32;
  scale : QGVector2
}.

(** [QGColor] is a union of four bytes and one [u32]; the wrappers use the
    [u32] view, [color]. *)
Record QGColor : Type := mkColor { color : Z }.

Record QGTexInfo : Type := mkTexInfo {
  filename : string;
  flip : bool;
  vram : bool
}.

(** ** Engine-owned structures reached through handles *)

(** [QGSprite]: the wrapper writes [transform] and [layer]; everything else
    the engine keeps in the structure is [sprite_rest]. *)
Record QGSprite (R : Type) : Type := mkQGSprite {
  transform : QGTransform2D;
  layer : Z;
  sprite_rest : R
}.
Arguments mkQGSprite {R} _ _ _.
Arguments transform {R} _.
Arguments layer {R} _.
Arguments sprite_rest {R} _.

(** [QGVMesh]: the wrapper reads [type], [data] and [indices]. *)
Record QGVMesh : Type := mkQGVMesh {
  type : Z;
  data : ptr;
  indices : ptr
}.

(** ** The wrapper objects: one record per class, one field per member *)

Record Mesh : Type := mkMesh { Mesh_ir : ptr }.

Record Texture : Type := mkTexture { Texture_ir : ptr }.

Record Sprite : Type := mkSprite {
  Sprite_transform : QGTransform2D;
  Sprite_layer : Z;
  Sprite_color : QGColor;
  Sprite_ir : ptr
}.

(** The address of the handle member of the object at [this], as passed by
    [&ir] to the engine's destroy functions. *)
Inductive lvalue : Type :=
  | Mesh_ir_at (this : ptr)
  | Texture_ir_at (this : ptr)
  | Sprite_ir_at (this : ptr).

(** ** Engine entry points, with the arguments they are called with *)

Inductive EngineCall : Type :=
  | QuickGame_Init
  | QuickGame_Running
  | QuickGame_Terminate
  | QuickGame_Request_Exit
  | QuickGame_Allocate (n : N)
  | QuickGame_Allocate_Aligned (a n : N)
  | QuickGame_Destroy (src : ptr)
  | QuickGame_Graphics_Init
  | QuickGame_Graphics_Terminate
  | QuickGame_Graphics_Set_Dialog_Mode (mode : bool)
  | QuickGame_Graphics_Start_Frame
  | QuickGame_Graphics_End_Frame (vsync : bool)
  | QuickGame_Graphics_Set_Clear_Color (c : QGColor)
  | QuickGame_Graphics_Clear
  | QuickGame_Graphics_Set2D
  | QuickGame_Graphics_Set_Camera (camera : ptr)
  | QuickGame_Graphics_Unset_Camera
  | QuickGame_Graphics_Create_Mesh (ty : Z) (vcount icount : N)
  | QuickGame_Graphics_Draw_Mesh (mesh : ptr)
  | QuickGame_Graphics_Destroy_Mesh (mesh : lvalue) (held : ptr)
  | QuickGame_Texture_Load (file : string) (flp vrm : bool)
  | QuickGame_Texture_Load_Alt (tex_info : QGTexInfo)
  | QuickGame_Texture_Bind (texture : ptr)
  | QuickGame_Texture_Unbind
  | QuickGame_Texture_Destroy (texture : lvalue) (held : ptr)
  | QuickGame_Sprite_Create (pos size : QGVector2) (texture : ptr)
  | QuickGame_Sprite_Create_Contained (px py sx sy : f32) (tex_info : QGTexInfo)
  | QuickGame_Sprite_Destroy (sprite : lvalue) (held : ptr)
  | QuickGame_Sprite_Draw (sprite : ptr)
  | QuickGame_Sprite_Intersects (a b : ptr)
  | QuickGame_Sprite_Intersect_Direction (a b : ptr)
  | QuickGame_Input_Init
  | QuickGame_Input_Update
  | QuickGame_Button_Pressed (buttons : Z)
  | QuickGame_Button_Held (buttons : Z)
  | QuickGame_Button_Released (buttons : Z).

(** What a Sprite constructor does, step by step: a store to a member of the
    object under construction, or an engine call. *)
Inductive Step : Type :=
  | Store_transform (t : QGTransform2D)
  | Store_layer (l : Z)
  | Store_color (c : QGColor)
  | Store_ir (h : ptr)
  | Engine_call (c : EngineCall).

(** An object under construction, with the steps taken on it so far, in
    program order. *)
Record Logged (O : Type) : Type := mkLogged { members : O; steps : list Step }.
Arguments mkLogged {O} _ _.
Arguments members {O} _.
Arguments steps {O} _.

(** What each entry point hands back.  A destroy function receives the
    address of a handle and may overwrite it: its result is the handle it
    leaves there.  [QuickGame_Graphics_Init] is given a status so that an
    engine can report failure through it; the wrapper discards it. *)
Definition Res (c : EngineCall) : Type :=
  match c with
  | QuickGame_Init => Z
  | QuickGame_Running => bool
  | QuickGame_Allocate _ => ptr
  | QuickGame_Allocate_Aligned _ _ => ptr
  | QuickGame_Graphics_Init => Z
  | QuickGame_Graphics_Create_Mesh _ _ _ => ptr
  | QuickGame_Graphics_Destroy_Mesh _ _ => ptr
  | QuickGame_Texture_Load _ _ _ => ptr
  | QuickGame_Texture_Load_Alt _ => ptr
  | QuickGame_Texture_Destroy _ _ => ptr
  | QuickGame_Sprite_Create _ _ _ => ptr
  | QuickGame_Sprite_Create_Contained _ _ _ _ _ => ptr
  | QuickGame_Sprite_Destroy _ _ => ptr
  | QuickGame_Sprite_Intersects _ _ => bool
  | QuickGame_Sprite_Intersect_Direction _ _ => Z
  | QuickGame_Button_Pressed _ => bool
  | QuickGame_Button_Held _ => bool
  | QuickGame_Button_Released _ => bool
  | _ => unit
  end.

(** Which entry point a call goes to, arguments forgotten. *)
Definition is_Create_Mesh (c : EngineCall) : bool :=
  match c with QuickGame_Graphics_Create_Mesh _ _ _ => true | _ => false end.

Definition is_Destroy_Mesh (c : EngineCall) : bool :=
  match c with QuickGame_Graphics_Destroy_Mesh _ _ => true | _ => false end.

(** ** The world: memory the engine owns, and its private state *)

Record World (E R : Type) : Type := mkWorld {
  sprites : gmap N (QGSprite R);
  meshes : gmap N QGVMesh;
  mem : ptr -> Z;
  private : E
}.
Arguments mkWorld {E R} _ _ _ _.
Arguments sprites {E R} _.
Arguments meshes {E R} _.
Arguments mem {E R} _.
Arguments private {E R} _.

(** [memcpy(dst, src, n)] on byte-addressed memory. *)
Definition memcpy (dst src : ptr) (n : N) (m : ptr -> Z) : ptr -> Z :=
  fun a => if (dst <=? a) && (a <? dst + n) then m (src + (a - dst)) else m a.

(** ** Outcomes and the wrapper monad *)

Inductive exception : Type := runtime_error (what : string).

Inductive outcome (A : Type) : Type :=
  | Normal (a : A)
  | Throw (e : exception)
  | Fault.
Arguments Normal {A} _.
Arguments Throw {A} _.
Arguments Fault {A}.

Definition throws {A : Type} (o : outcome A) : bool :=
  match o with Throw _ => true | _ => false end.

Definition returns {A : Type} (o : outcome A) : bool :=
  match o with Normal _ => true | _ => false end.

Record St (E R O : Type) : Type := mkSt {
  obj : O;
  world : World E R;
  trace : list EngineCall
}.
Arguments mkSt {E R O} _ _ _.
Arguments obj {E R O} _.
Arguments world {E R O} _.
Arguments trace {E R O} _.

Definition M (E R O A : Type) : Type := St E R O -> outcome A * St E R O.

(** ** A scripted engine, for running the wrappers on concrete inputs

    It answers every status with [status], every created or loaded handle
    and every allocation with [handle], every flag with [flag], leaves
    [left] in the handle a destroy function is given, and never touches the
    world. *)
Definition scripted (status : Z) (handle left : ptr) (flag : bool)
  (c : EngineCall) (w : World unit unit) : Res c * World unit unit :=
  match c as c0 return Res c0 * World unit unit with
  | QuickGame_Init => (status, w)
  | QuickGame_Running => (flag, w)
  | QuickGame_Terminate => (tt, w)
  | QuickGame_Request_Exit => (tt, w)
  | QuickGame_Allocate _ => (handle, w)
  | QuickGame_Allocate_Aligned _ _ => (handle, w)
  | QuickGame_Destroy _ => (tt, w)
  | QuickGame_Graphics_Init => (status, w)
  | QuickGame_Graphics_Terminate => (tt, w)
  | QuickGame_Graphics_Set_Dialog_Mode _ => (tt, w)
  | QuickGame_Graphics_Start_Frame => (tt, w)
  | QuickGame_Graphics_End_Frame _ => (tt, w)
  | QuickGame_Graphics_Set_Clear_Color _ => (tt, w)
  | QuickGame_Graphics_Clear => (tt, w)
  | QuickGame_Graphics_Set2D => (tt, w)
  | QuickGame_Graphics_Set_Camera _ => (tt, w)
  | QuickGame_Graphics_Unset_Camera => (tt, w)
  | QuickGame_Graphics_Create_Mesh _ _ _ => (handle, w)
  | QuickGame_Graphics_Draw_Mesh _ => (tt, w)
  | QuickGame_Graphics_Destroy_Mesh _ _ => (left, w)
  | QuickGame_Texture_Load _ _ _ => (handle, w)
  | QuickGame_Texture_Load_Alt _ => (handle, w)
  | QuickGame_Texture_Bind _ => (tt, w)
  | QuickGame_Texture_Unbind => (tt, w)
  | QuickGame_Texture_Destroy _ _ => (left, w)
  | QuickGame_Sprite_Create _ _ _ => (handle, w)
  | QuickGame_Sprite_Create_Contained _ _ _ _ _ => (handle, w)
  | QuickGame_Sprite_Destroy _ _ => (left, w)
  | QuickGame_Sprite_Draw _ => (tt, w)
  | QuickGame_Sprite_Intersects _ _ => (flag, w)
  | QuickGame_Sprite_Intersect_Direction _ _ => (status, w)
  | QuickGame_Input_Init => (tt, w)
  | QuickGame_Input_Update => (tt, w)
  | QuickGame_Button_Pressed _ => (flag, w)
  | QuickGame_Button_Held _ => (flag, w)
  | QuickGame_Button_Released _ => (flag, w)
  end.

(** An engine that works, and one on which every fallible call fails. *)
Definition engine_ok := scripted 0%Z 64 NULL true.
Definition engine_failing := scripted (-1)%Z NULL NULL false.

(** Sample data: a world with one sprite structure at address 64 and one
    colored-vertex mesh at address 96 (vertex buffer at 1000, index buffer
    at 2000), where the byte at address [a] is [a mod 256]. *)
Definition origin : QGVector2 := mkVector2 0%Z 0%Z.
Definition unit_size : QGVector2 := mkVector2 0x3F800000%Z 0x3F800000%Z.
Definition at_3_4 : QGVector2 := mkVector2 0x40400000%Z 0x40800000%Z.

Definition sample_world : World unit unit :=
  mkWorld {[ 64 := mkQGSprite (mkTransform2D origin 0%Z unit_size) 7%Z tt ]}
          {[ 96 := mkQGVMesh 1%Z 1000 2000 ]}
          (fun a => Z.of_N (a mod 256))
          tt.

Definition empty_world : World unit unit :=
  mkWorld ∅ ∅ (fun _ => 0%Z) tt.

Definition sample_sprite : Sprite :=
  mkSprite (mkTransform2D at_3_4 0x3F000000%Z unit_size) 2%Z (mkColor 0xFF00FF00%Z) 64.

Definition sample_info : QGTexInfo := mkTexInfo "player.png" false true.

Section Wrappers.

Context {E R : Type}.

(** The engine: every entry point answers from the world and may change it. *)
Variable engine : forall c : EngineCall, World E R -> Res c * World E R.

(** Constants of the engine header and of the platform. *)
Variable QG_VERTEX_TYPE_TEXTURED : Z.
Variable sizeof_QGTexturedVertex : N.
Variable sizeof_QGColoredVertex : N.
Variable usize_bits : N.

Definition sizeof_u16 : N := 2.

(** Multiplication of two [size_t] values. *)
Definition usize_mul (a b : N) : N := (a * b) mod 2 ^ usize_bits.

Section Monad.

Context {O : Type}.

#[export] Instance M_ret : MRet (M E R O) :=
  fun A a st => (Normal a, st).

#[export] Instance M_bind : MBind (M E R O) :=
  fun A B k c st =>
    match c st with
    | (Normal a, st') => k a st'
    | (Throw e, st') => (Throw e, st')
    | (Fault, st') => (Fault, st')
    end.

Definition throw {A : Type} (e : exception) : M E R O A :=
  fun st => (Throw e, st).

Definition fault {A : Type} : M E R O A :=
  fun st => (Fault, st).

Definition get_obj : M E R O O :=
  fun st => (Normal (obj st), st).

Definition put_obj (o : O) : M E R O unit :=
  fun st => (Normal tt, mkSt o (world st) (trace st)).

Definition get_world : M E R O (World E R) :=
  fun st => (Normal (world st), st).

Definition put_world (w : World E R) : M E R O unit :=
  fun st => (Normal tt, mkSt (obj st) w (trace st)).

(** One call of an engine entry point: the engine answers and moves the
    world, and the call is appended to the trace. *)
Definition call (c : EngineCall) : M E R O (Res c) :=
  fun st =>
    let (r, w) := engine c (world st) in
    (Normal r, mkSt (obj st) w (trace st ++ [c])).

(** [p->transform = t]: a fault unless [p] designates a sprite structure. *)
Definition store_transform (p : ptr) (t : QGTransform2D) : M E R O unit :=
  w ← get_world;
  match sprites w !! p with
  | Some s =>
      put_world (mkWorld (<[p := mkQGSprite t (layer s) (sprite_rest s)]> (sprites w))
                         (meshes w) (mem w) (private w))
  | None => fault
  end.

(** [p->layer = l]. *)
Definition store_layer (p : ptr) (l : Z) : M E R O unit :=
  w ← get_world;
  match sprites w !! p with
  | Some s =>
      put_world (mkWorld (<[p := mkQGSprite (transform s) l (sprite_rest s)]> (sprites w))
                         (meshes w) (mem w) (private w))
  | None => fault
  end.

(** Reading a member of [*p] for a mesh handle [p]. *)
Definition load_mesh (p : ptr) : M E R O QGVMesh :=
  w ← get_world;
  match meshes w !! p with
  | Some m => mret m
  | None => fault
  end.

Definition do_memcpy (dst src : ptr) (n : N) : M E R O unit :=
  w ← get_world;
  put_world (mkWorld (sprites w) (meshes w) (memcpy dst src n (mem w)) (private w)).

(** *** namespace QuickGame *)

Definition init : M E R O unit :=
  r ← call QuickGame_Init;
  if (r <? 0)%Z then throw (runtime_error "Failed to initialize!") else mret tt.

Definition running : M E R O bool := call QuickGame_Running.

Definition terminate : M E R O unit := call QuickGame_Terminate.

Definition request_exit : M E R O unit := call QuickGame_Request_Exit.

Definition allocate (n : N) : M E R O ptr := call (QuickGame_Allocate n).

Definition allocate_aligned (a n : N) : M E R O ptr :=
  call (QuickGame_Allocate_Aligned a n).

Definition destroy (src : ptr) : M E R O unit := call (QuickGame_Destroy src).

(** *** namespace QuickGame::Graphics *)

Definition Graphics_init : M E R O unit :=
  _ ← call QuickGame_Graphics_Init; mret tt.

Definition Graphics_terminate : M E R O unit := call QuickGame_Graphics_Terminate.

Definition Graphics_set_dialog_mode (mode : bool) : M E R O unit :=
  call (QuickGame_Graphics_Set_Dialog_Mode mode).

Definition Graphics_start_frame : M E R O unit := call QuickGame_Graphics_Start_Frame.

Definition Graphics_end_frame (vsync : bool) : M E R O unit :=
  call (QuickGame_Graphics_End_Frame vsync).

Definition Graphics_set_clear_color (c : QGColor) : M E R O unit :=
  call (QuickGame_Graphics_Set_Clear_Color c).

Definition Graphics_clear : M E R O unit := call QuickGame_Graphics_Clear.

Definition Graphics_set2D : M E R O unit := call QuickGame_Graphics_Set2D.

Definition Graphics_set_camera (camera : ptr) : M E R O unit :=
  call (QuickGame_Graphics_Set_Camera camera).

Definition Graphics_unset_camera : M E R O unit := call QuickGame_Graphics_Unset_Camera.

(** *** namespace QuickGame::Input *)

Definition Input_init : M E R O unit := call QuickGame_Input_Init.

Definition Input_update : M E R O unit := call QuickGame_Input_Update.

Definition Input_button_pressed (buttons : Z) : M E R O bool :=
  call (QuickGame_Button_Pressed buttons).

Definition Input_button_held (buttons : Z) : M E R O bool :=
  call (QuickGame_Button_Held buttons).

Definition Input_button_released (buttons : Z) : M E R O bool :=
  call (QuickGame_Button_Released buttons).

End Monad.

(** *** class Mesh *)

(** [Mesh() : ir(NULL) {}] *)
Definition Mesh_ctor_default : M E R Mesh unit := put_obj (mkMesh NULL).

Definition Mesh_delete_data (this : ptr) : M E R Mesh unit :=
  o ← get_obj;
  h ← call (QuickGame_Graphics_Destroy_Mesh (Mesh_ir_at this) (Mesh_ir o));
  put_obj (mkMesh h).

Definition Mesh_create_mesh (this : ptr) (ty : Z) (vcount icount : N) : M E R Mesh unit :=
  o ← get_obj;
  _ ← (if negb (Mesh_ir o =? NULL)
       then Mesh_delete_data this
       else h ← call (QuickGame_Graphics_Create_Mesh ty vcount icount);
            put_obj (mkMesh h));
  o' ← get_obj;
  if Mesh_ir o' =? NULL
  then throw (runtime_error "Mesh creation failed!")
  else mret tt.

(** [Mesh(type, vcount, icount) : ir(NULL) { create_mesh(...); }] *)
Definition Mesh_ctor (this : ptr) (ty : Z) (vcount icount : N) : M E R Mesh unit :=
  _ ← put_obj (mkMesh NULL);
  Mesh_create_mesh this ty vcount icount.

Definition Mesh_dtor (this : ptr) : M E R Mesh unit := Mesh_delete_data this.

Definition Mesh_add_data (verts : ptr) (vcount : N) (idx : ptr) (icount : N)
  : M E R Mesh unit :=
  if (verts =? NULL) || (idx =? NULL)
  then throw (runtime_error "Mesh data null!")
  else
    o ← get_obj;
    m ← load_mesh (Mesh_ir o);
    let size := if (type m =? QG_VERTEX_TYPE_TEXTURED)%Z
                then sizeof_QGTexturedVertex else sizeof_QGColoredVertex in
    m1 ← load_mesh (Mesh_ir o);
    _ ← do_memcpy (data m1) verts (usize_mul vcount size);
    m2 ← load_mesh (Mesh_ir o);
    do_memcpy (indices m2) idx (usize_mul icount sizeof_u16).

Definition Mesh_draw : M E R Mesh unit :=
  o ← get_obj; call (QuickGame_Graphics_Draw_Mesh (Mesh_ir o)).

(** *** class Texture *)

(** [Texture(filename, flip, vram) : ir(NULL)] *)
Definition Texture_ctor (file : string) (flp vrm : bool) : M E R Texture unit :=
  _ ← put_obj (mkTexture NULL);
  h ← call (QuickGame_Texture_Load file flp vrm);
  _ ← put_obj (mkTexture h);
  o ← get_obj;
  if Texture_ir o =? NULL
  then throw (runtime_error "Could not load texture!")
  else mret tt.

(** [Texture(tex_info)] *)
Definition Texture_ctor_info (tex_info : QGTexInfo) : M E R Texture unit :=
  h ← call (QuickGame_Texture_Load_Alt tex_info);
  _ ← put_obj (mkTexture h);
  o ← get_obj;
  if Texture_ir o =? NULL
  then throw (runtime_error "Could not load texture!")
  else mret tt.

Definition Texture_bind : M E R Texture unit :=
  o ← get_obj; call (QuickGame_Texture_Bind (Texture_ir o)).

Definition Texture_unbind : M E R Texture unit := call QuickGame_Texture_Unbind.

Definition Texture_dtor (this : ptr) : M E R Texture unit :=
  o ← get_obj;
  h ← call (QuickGame_Texture_Destroy (Texture_ir_at this) (Texture_ir o));
  put_obj (mkTexture h).

(** *** class Sprite *)

Definition set_transform (t : QGTransform2D) : M E R Sprite unit :=
  o ← get_obj; put_obj (mkSprite t (Sprite_layer o) (Sprite_color o) (Sprite_ir o)).

Definition set_layer (l : Z) : M E R Sprite unit :=
  o ← get_obj; put_obj (mkSprite (Sprite_transform o) l (Sprite_color o) (Sprite_ir o)).

Definition set_color (c : QGColor) : M E R Sprite unit :=
  o ← get_obj; put_obj (mkSprite (Sprite_transform o) (Sprite_layer o) c (Sprite_ir o)).

Definition set_ir (h : ptr) : M E R Sprite unit :=
  o ← get_obj; put_obj (mkSprite (Sprite_transform o) (Sprite_layer o) (Sprite_color o) h).

(** The constructors are written over the object together with the log of
    their steps: [logged s c] runs the store or call [c] on the object and
    appends [s] to the log, and [unlogged] runs a constructor on the bare
    object, starting from an empty log. *)
Definition logged {A : Type} (s : Step) (c : M E R Sprite A)
  : M E R (Logged Sprite) A :=
  fun st =>
    let r := c (mkSt (members (obj st)) (world st) (trace st)) in
    (fst r,
     mkSt (mkLogged (obj (snd r)) (steps (obj st) ++ [s])) (world (snd r)) (trace (snd r))).

Definition unlogged {A : Type} (c : M E R (Logged Sprite) A) : M E R Sprite A :=
  fun st =>
    let r := c (mkSt (mkLogged (obj st) []) (world st) (trace st)) in
    (fst r, mkSt (members (obj (snd r))) (world (snd r)) (trace (snd r))).

(** The steps a constructor takes when run on the bare object of [st]. *)
Definition steps_of {A : Type} (c : M E R (Logged Sprite) A) (st : St E R Sprite)
  : list Step :=
  steps (obj (snd (c (mkSt (mkLogged (obj st) []) (world st) (trace st))))).

Definition ctor_transform (t : QGTransform2D) : M E R (Logged Sprite) unit :=
  logged (Store_transform t) (set_transform t).

Definition ctor_layer (l : Z) : M E R (Logged Sprite) unit :=
  logged (Store_layer l) (set_layer l).

Definition ctor_color (c : QGColor) : M E R (Logged Sprite) unit :=
  logged (Store_color c) (set_color c).

Definition ctor_ir (h : ptr) : M E R (Logged Sprite) unit :=
  logged (Store_ir h) (set_ir h).

Definition ctor_call (c : EngineCall) : M E R (Logged Sprite) (Res c) :=
  logged (Engine_call c) (call c).

(** [Sprite(position, size, Texture* texture)], statement by statement.
    [texture] is [None] when the pointer designates no Texture object:
    [texture->ir] is then undefined behaviour in the source, the model stops
    with a fault, and nothing is stated about the state it stops in. *)
Definition Sprite_ctor_logged (pos size : QGVector2) (texture : option Texture)
  : M E R (Logged Sprite) unit :=
  _ ← ctor_transform (mkTransform2D pos f32_of_zero size);
  _ ← ctor_layer 0%Z;
  _ ← ctor_color (mkColor 0xFFFFFFFF%Z);
  tex ← match texture with Some t => mret (Texture_ir t) | None => fault end;
  h ← ctor_call (QuickGame_Sprite_Create pos size tex);
  _ ← ctor_ir h;
  o ← get_obj;
  if Sprite_ir (members o) =? NULL
  then throw (runtime_error "Could not make sprite!")
  else mret tt.

Definition Sprite_ctor (pos size : QGVector2) (texture : option Texture)
  : M E R Sprite unit :=
  unlogged (Sprite_ctor_logged pos size texture).

(** [Sprite(position, size, tex_info)], statement by statement. *)
Definition Sprite_ctor_contained_logged (pos size : QGVector2) (tex_info : QGTexInfo)
  : M E R (Logged Sprite) unit :=
  _ ← ctor_transform (mkTransform2D pos f32_of_zero size);
  _ ← ctor_layer 0%Z;
  _ ← ctor_color (mkColor 0xFFFFFFFF%Z);
  h ← ctor_call (QuickGame_Sprite_Create_Contained (x pos) (y pos) (x size) (y size)
                   tex_info);
  _ ← ctor_ir h;
  o ← get_obj;
  if Sprite_ir (members o) =? NULL
  then throw (runtime_error "Could not make sprite!")
  else mret tt.

Definition Sprite_ctor_contained (pos size : QGVector2) (tex_info : QGTexInfo)
  : M E R Sprite unit :=
  unlogged (Sprite_ctor_contained_logged pos size tex_info).

Definition Sprite_dtor (this : ptr) : M E R Sprite unit :=
  o ← get_obj;
  h ← call (QuickGame_Sprite_Destroy (Sprite_ir_at this) (Sprite_ir o));
  set_ir h.

Definition Sprite_draw : M E R Sprite unit :=
  o ← get_obj;
  if Sprite_ir o =? NULL then mret tt
  else
    _ ← store_transform (Sprite_ir o) (Sprite_transform o);
    _ ← store_layer (Sprite_ir o) (Sprite_layer o);
    call (QuickGame_Sprite_Draw (Sprite_ir o)).

Definition Sprite_intersects (other : Sprite) : M E R Sprite bool :=
  o ← get_obj; call (QuickGame_Sprite_Intersects (Sprite_ir o) (Sprite_ir other)).

Definition Sprite_intersection (other : Sprite) : M E R Sprite Z :=
  o ← get_obj; call (QuickGame_Sprite_Intersect_Direction (Sprite_ir o) (Sprite_ir other)).

(** What the engine answers to a call made in world [w], and the world it
    leaves. *)
Definition answer (c : EngineCall) (w : World E R) : Res c := fst (engine c w).
Definition moved (c : EngineCall) (w : World E R) : World E R := snd (engine c w).

(** Run from [st], the computation makes exactly the engine calls [l], in
    that order. *)
Definition makes_calls {O A : Type} (c : M E R O A) (st : St E R O)
  (l : list EngineCall) : Prop :=
  trace (snd (c st)) = (trace st ++ l)%list.

(** The engine honours its destroy contract when it nulls the handle whose
    address it is given. *)
Definition destroy_nulls_handle : Prop :=
  forall (r : lvalue) (h : ptr) (w : World E R),
    answer (QuickGame_Graphics_Destroy_Mesh r h) w = NULL /\
    answer (QuickGame_Texture_Destroy r h) w = NULL /\
    answer (QuickGame_Sprite_Destroy r h) w = NULL.

(** The engine's draw call reads a sprite structure and leaves the sprite
    table as it found it. *)
Definition draw_keeps_sprites : Prop :=
  forall (p : ptr) (w : World E R),
    sprites (moved (QuickGame_Sprite_Draw p) w) = sprites w.

(** The element size [add_data] picks for a mesh. *)
Definition vertex_size (m : QGVMesh) : N :=
  if (type m =? QG_VERTEX_TYPE_TEXTURED)%Z
  then sizeof_QGTexturedVertex else sizeof_QGColoredVertex.

(** [p->transform = t; p->layer = l] on the sprite table. *)
Definition with_sprite (p : ptr) (t : QGTransform2D) (l : Z) (s : QGSprite R)
  (w : World E R) : World E R :=
  mkWorld (<[p := mkQGSprite t l (sprite_rest s)]> (sprites w))
          (meshes w) (mem w) (private w).

(** The two copies of [add_data] on byte memory. *)
Definition with_mesh_data (m : QGVMesh) (verts : ptr) (vcount : N) (idx : ptr)
  (icount : N) (w : World E R) : World E R :=
  mkWorld (sprites w) (meshes w)
          (memcpy (indices m) idx (usize_mul icount sizeof_u16)
             (memcpy (data m) verts (usize_mul vcount (vertex_size m)) (mem w)))
          (private w).

(** A computation that can only throw [e]. *)
Definition throws_only {O A : Type} (c : M E R O A) (st : St E R O)
  (e : exception) : Prop :=
  forall e' : exception, fst (c st) = Throw e' -> e' = e.


(** ** How the wrappers run *)

Lemma call_run {O : Type} (c : EngineCall) (st : St E R O) :
  call c st = (Normal (answer c (world st)),
               mkSt (obj st) (moved c (world st)) (trace st ++ [c])).
Proof. unfold call, answer, moved. destruct (engine c (world st)); reflexivity. Qed.

Lemma bind_run {O A B : Type} (c : M E R O A) (k : A -> M E R O B) (st : St E R O) :
  (c ≫= k) st =
  match c st with
  | (Normal a, st') => k a st'
  | (Throw e, st') => (Throw e, st')
  | (Fault, st') => (Fault, st')
  end.
Proof. reflexivity. Qed.

Ltac run :=
  repeat (rewrite bind_run || rewrite call_run ||
          (progress cbn [get_obj put_obj get_world put_world throw fault
                         mret M_ret obj world trace fst snd Res])).

Ltac split_if :=
  match goal with |- context [if ?b then _ else _] => destruct b eqn:? end.

Lemma init_run {O : Type} (st : St E R O) :
  init st =
  (if (answer QuickGame_Init (world st) <? 0)%Z
   then Throw (runtime_error "Failed to initialize!") else Normal tt,
   mkSt (obj st) (moved QuickGame_Init (world st)) (trace st ++ [QuickGame_Init])).
Proof.
  unfold init. run. split_if; reflexivity.
Qed.

Lemma Graphics_init_run {O : Type} (st : St E R O) :
  Graphics_init st =
  (Normal tt, mkSt (obj st) (moved QuickGame_Graphics_Init (world st))
                   (trace st ++ [QuickGame_Graphics_Init])).
Proof. unfold Graphics_init. run. reflexivity. Qed.

Lemma Mesh_delete_data_run (this : ptr) (st : St E R Mesh) :
  Mesh_delete_data this st =
  let c := QuickGame_Graphics_Destroy_Mesh (Mesh_ir_at this) (Mesh_ir (obj st)) in
  (Normal tt, mkSt (mkMesh (answer c (world st))) (moved c (world st)) (trace st ++ [c])).
Proof. unfold Mesh_delete_data. run. reflexivity. Qed.

Lemma Mesh_create_mesh_run_fresh (this : ptr) (ty : Z) (vcount icount : N)
    (st : St E R Mesh) :
  Mesh_ir (obj st) = NULL ->
  Mesh_create_mesh this ty vcount icount st =
  let c := QuickGame_Graphics_Create_Mesh ty vcount icount in
  (if answer c (world st) =? NULL
   then Throw (runtime_error "Mesh creation failed!") else Normal tt,
   mkSt (mkMesh (answer c (world st))) (moved c (world st)) (trace st ++ [c])).
Proof.
  intros Hnull. unfold Mesh_create_mesh. run. rewrite Hnull. cbn [N.eqb NULL negb].
  run. cbn [Mesh_ir]. split_if; reflexivity.
Qed.

Lemma Mesh_create_mesh_run_held (this : ptr) (ty : Z) (vcount icount : N)
    (st : St E R Mesh) :
  Mesh_ir (obj st) <> NULL ->
  Mesh_create_mesh this ty vcount icount st =
  let c := QuickGame_Graphics_Destroy_Mesh (Mesh_ir_at this) (Mesh_ir (obj st)) in
  (if answer c (world st) =? NULL
   then Throw (runtime_error "Mesh creation failed!") else Normal tt,
   mkSt (mkMesh (answer c (world st))) (moved c (world st)) (trace st ++ [c])).
Proof.
  intros Hheld. unfold Mesh_create_mesh. run.
  apply N.eqb_neq in Hheld. rewrite Hheld. cbn [negb].
  rewrite Mesh_delete_data_run. run. cbn [Mesh_ir]. split_if; reflexivity.
Qed.

Lemma Mesh_ctor_run (this : ptr) (ty : Z) (vcount icount : N) (st : St E R Mesh) :
  Mesh_ctor this ty vcount icount st =
  let c := QuickGame_Graphics_Create_Mesh ty vcount icount in
  (if answer c (world st) =? NULL
   then Throw (runtime_error "Mesh creation failed!") else Normal tt,
   mkSt (mkMesh (answer c (world st))) (moved c (world st)) (trace st ++ [c])).
Proof.
  unfold Mesh_ctor. run. rewrite Mesh_create_mesh_run_fresh by reflexivity.
  reflexivity.
Qed.

Lemma Texture_ctor_run (file : string) (flp vrm : bool) (st : St E R Texture) :
  Texture_ctor file flp vrm st =
  let c := QuickGame_Texture_Load file flp vrm in
  (if answer c (world st) =? NULL
   then Throw (runtime_error "Could not load texture!") else Normal tt,
   mkSt (mkTexture (answer c (world st))) (moved c (world st)) (trace st ++ [c])).
Proof. unfold Texture_ctor. run. cbn [Texture_ir]. split_if; reflexivity. Qed.

Lemma Texture_ctor_info_run (tex_info : QGTexInfo) (st : St E R Texture) :
  Texture_ctor_info tex_info st =
  let c := QuickGame_Texture_Load_Alt tex_info in
  (if answer c (world st) =? NULL
   then Throw (runtime_error "Could not load texture!") else Normal tt,
   mkSt (mkTexture (answer c (world st))) (moved c (world st)) (trace st ++ [c])).
Proof. unfold Texture_ctor_info. run. cbn [Texture_ir]. split_if; reflexivity. Qed.

Lemma Texture_dtor_run (this : ptr) (st : St E R Texture) :
  Texture_dtor this st =
  let c := QuickGame_Texture_Destroy (Texture_ir_at this) (Texture_ir (obj st)) in
  (Normal tt, mkSt (mkTexture (answer c (world st))) (moved c (world st)) (trace st ++ [c])).
Proof. unfold Texture_dtor. run. reflexivity. Qed.

Ltac run_ctor :=
  unfold ctor_transform, ctor_layer, ctor_color, ctor_ir, ctor_call, logged,
    set_transform, set_layer, set_color, set_ir;
  run;
  cbn [members steps Sprite_ir Sprite_transform Sprite_layer Sprite_color].

Lemma Sprite_ctor_logged_run (pos size : QGVector2) (t : Texture)
    (st : St E R (Logged Sprite)) :
  Sprite_ctor_logged pos size (Some t) st =
  let c := QuickGame_Sprite_Create pos size (Texture_ir t) in
  (if answer c (world st) =? NULL
   then Throw (runtime_error "Could not make sprite!") else Normal tt,
   mkSt (mkLogged
           (mkSprite (mkTransform2D pos f32_of_zero size) 0%Z (mkColor 0xFFFFFFFF%Z)
                     (answer c (world st)))
           (steps (obj st) ++
            [Store_transform (mkTransform2D pos f32_of_zero size); Store_layer 0%Z;
             Store_color (mkColor 0xFFFFFFFF%Z); Engine_call c;
             Store_ir (answer c (world st))]))
        (moved c (world st)) (trace st ++ [c])).
Proof.
  unfold Sprite_ctor_logged. run_ctor. rewrite <- !app_assoc. cbn [app].
  split_if; reflexivity.
Qed.

Lemma Sprite_ctor_contained_logged_run (pos size : QGVector2) (tex_info : QGTexInfo)
    (st : St E R (Logged Sprite)) :
  Sprite_ctor_contained_logged pos size tex_info st =
  let c := QuickGame_Sprite_Create_Contained (x pos) (y pos) (x size) (y size) tex_info in
  (if answer c (world st) =? NULL
   then Throw (runtime_error "Could not make sprite!") else Normal tt,
   mkSt (mkLogged
           (mkSprite (mkTransform2D pos f32_of_zero size) 0%Z (mkColor 0xFFFFFFFF%Z)
                     (answer c (world st)))
           (steps (obj st) ++
            [Store_transform (mkTransform2D pos f32_of_zero size); Store_layer 0%Z;
             Store_color (mkColor 0xFFFFFFFF%Z); Engine_call c;
             Store_ir (answer c (world st))]))
        (moved c (world st)) (trace st ++ [c])).
Proof.
  unfold Sprite_ctor_contained_logged. run_ctor. rewrite <- !app_assoc. cbn [app].
  split_if; reflexivity.
Qed.

Lemma Sprite_ctor_run (pos size : QGVector2) (t : Texture) (st : St E R Sprite) :
  Sprite_ctor pos size (Some t) st =
  let c := QuickGame_Sprite_Create pos size (Texture_ir t) in
  (if answer c (world st) =? NULL
   then Throw (runtime_error "Could not make sprite!") else Normal tt,
   mkSt (mkSprite (mkTransform2D pos f32_of_zero size) 0%Z (mkColor 0xFFFFFFFF%Z)
                  (answer c (world st)))
        (moved c (world st)) (trace st ++ [c])).
Proof.
  unfold Sprite_ctor, unlogged. rewrite Sprite_ctor_logged_run. reflexivity.
Qed.

Lemma Sprite_ctor_no_texture (pos size : QGVector2) (st : St E R Sprite) :
  Sprite_ctor pos size None st =
  (Fault,
   mkSt (mkSprite (mkTransform2D pos f32_of_zero size) 0%Z (mkColor 0xFFFFFFFF%Z)
                  (Sprite_ir (obj st)))
        (world st) (trace st)).
Proof.
  unfold Sprite_ctor, unlogged, Sprite_ctor_logged. run_ctor. reflexivity.
Qed.

Lemma Sprite_ctor_contained_run (pos size : QGVector2) (tex_info : QGTexInfo)
    (st : St E R Sprite) :
  Sprite_ctor_contained pos size tex_info st =
  let c := QuickGame_Sprite_Create_Contained (x pos) (y pos) (x size) (y size) tex_info in
  (if answer c (world st) =? NULL
   then Throw (runtime_error "Could not make sprite!") else Normal tt,
   mkSt (mkSprite (mkTransform2D pos f32_of_zero size) 0%Z (mkColor 0xFFFFFFFF%Z)
                  (answer c (world st)))
        (moved c (world st)) (trace st ++ [c])).
Proof.
  unfold Sprite_ctor_contained, unlogged. rewrite Sprite_ctor_contained_logged_run.
  reflexivity.
Qed.

Lemma Sprite_dtor_run (this : ptr) (st : St E R Sprite) :
  Sprite_dtor this st =
  let c := QuickGame_Sprite_Destroy (Sprite_ir_at this) (Sprite_ir (obj st)) in
  (Normal tt,
   mkSt (mkSprite (Sprite_transform (obj st)) (Sprite_layer (obj st))
                  (Sprite_color (obj st)) (answer c (world st)))
        (moved c (world st)) (trace st ++ [c])).
Proof. unfold Sprite_dtor, set_ir. run. reflexivity. Qed.

Lemma Sprite_draw_null (st : St E R Sprite) :
  Sprite_ir (obj st) = NULL -> Sprite_draw st = (Normal tt, st).
Proof.
  intros Hnull. unfold Sprite_draw. run. rewrite Hnull. reflexivity.
Qed.

Lemma Sprite_draw_live (st : St E R Sprite) (s : QGSprite R) :
  Sprite_ir (obj st) <> NULL ->
  sprites (world st) !! Sprite_ir (obj st) = Some s ->
  Sprite_draw st =
  let w := with_sprite (Sprite_ir (obj st)) (Sprite_transform (obj st))
                       (Sprite_layer (obj st)) s (world st) in
  let c := QuickGame_Sprite_Draw (Sprite_ir (obj st)) in
  (Normal tt, mkSt (obj st) (moved c w) (trace st ++ [c])).
Proof.
  intros Hheld Hlive. unfold Sprite_draw. run.
  apply N.eqb_neq in Hheld. rewrite Hheld.
  unfold store_transform, store_layer. run. rewrite Hlive. run.
  cbn [sprites meshes mem private]. rewrite lookup_insert_eq. run.
  cbn [sprites meshes mem private layer transform sprite_rest].
  rewrite insert_insert_eq.
  match goal with |- (Normal ?u, _) = _ => destruct u end. reflexivity.
Qed.

Lemma Sprite_draw_dangling (st : St E R Sprite) :
  Sprite_ir (obj st) <> NULL ->
  sprites (world st) !! Sprite_ir (obj st) = None ->
  Sprite_draw st = (Fault, st).
Proof.
  intros Hheld Hgone. unfold Sprite_draw. run.
  apply N.eqb_neq in Hheld. rewrite Hheld.
  unfold store_transform. run. rewrite Hgone. reflexivity.
Qed.

Lemma Mesh_add_data_null (verts : ptr) (vcount : N) (idx : ptr) (icount : N)
    (st : St E R Mesh) :
  verts = NULL \/ idx = NULL ->
  Mesh_add_data verts vcount idx icount st =
  (Throw (runtime_error "Mesh data null!"), st).
Proof.
  intros Hnull. unfold Mesh_add_data.
  assert ((verts =? NULL) || (idx =? NULL) = true) as ->; [|reflexivity].
  apply orb_true_iff. destruct Hnull as [-> | ->]; [left | right]; reflexivity.
Qed.

Lemma Mesh_add_data_live (verts : ptr) (vcount : N) (idx : ptr) (icount : N)
    (st : St E R Mesh) (m : QGVMesh) :
  verts <> NULL -> idx <> NULL ->
  meshes (world st) !! Mesh_ir (obj st) = Some m ->
  Mesh_add_data verts vcount idx icount st =
  (Normal tt,
   mkSt (obj st) (with_mesh_data m verts vcount idx icount (world st)) (trace st)).
Proof.
  intros Hv Hi Hlive. unfold Mesh_add_data.
  apply N.eqb_neq in Hv, Hi. rewrite Hv, Hi. cbn [orb].
  unfold load_mesh, do_memcpy. run. rewrite Hlive. run.
  cbn [sprites meshes mem private]. rewrite Hlive. run.
  cbn [sprites meshes mem private]. rewrite Hlive. run.
  reflexivity.
Qed.

Lemma Mesh_add_data_no_mesh (verts : ptr) (vcount : N) (idx : ptr) (icount : N)
    (st : St E R Mesh) :
  verts <> NULL -> idx <> NULL ->
  meshes (world st) !! Mesh_ir (obj st) = None ->
  Mesh_add_data verts vcount idx icount st = (Fault, st).
Proof.
  intros Hv Hi Hgone. unfold Mesh_add_data.
  apply N.eqb_neq in Hv, Hi. rewrite Hv, Hi. cbn [orb].
  unfold load_mesh. run. rewrite Hgone. reflexivity.
Qed.

(** What [memcpy] leaves in memory. *)
Lemma memcpy_inside (dst src : ptr) (n : N) (m : ptr -> Z) (i : N) :
  i < n -> memcpy dst src n m (dst + i) = m (src + i).
Proof.
  intros Hi. unfold memcpy.
  assert ((dst <=? dst + i) && (dst + i <? dst + n) = true) as ->.
  { apply andb_true_iff. split; [apply N.leb_le | apply N.ltb_lt]; lia. }
  f_equal. lia.
Qed.

Lemma memcpy_outside (dst src : ptr) (n : N) (m : ptr -> Z) (a : ptr) :
  a < dst \/ dst + n <= a -> memcpy dst src n m a = m a.
Proof.
  intros Ha. unfold memcpy.
  assert ((dst <=? a) && (a <? dst + n) = false) as ->; [|reflexivity].
  apply andb_false_iff. destruct Ha; [left; apply N.leb_gt | right; apply N.ltb_ge]; lia.
Qed.

Lemma usize_mul_small (a b : N) :
  a * b < 2 ^ usize_bits -> usize_mul a b = a * b.
Proof. intros Hsmall. unfold usize_mul. apply N.mod_small, Hsmall. Qed.

(** ** The engine status of [QuickGame::init] *)

(** C3: [QuickGame::init()] throws its runtime error exactly when
    [QuickGame_Init()] answers a negative value; on a non-negative answer it
    returns normally, having made that one engine call and changed nothing
    else. *)
Theorem init_throws_iff_negative {O : Type} (st : St E R O) :
  (fst (init st) = Throw (runtime_error "Failed to initialize!") <->
   (answer QuickGame_Init (world st) < 0)%Z) /\
  (throws (fst (init st)) = true <-> (answer QuickGame_Init (world st) < 0)%Z) /\
  ((0 <= answer QuickGame_Init (world st))%Z ->
   init st = (Normal tt,
              mkSt (obj st) (moved QuickGame_Init (world st))
                   (trace st ++ [QuickGame_Init]))).
Proof.
  rewrite init_run. cbn [fst].
  destruct (Z.ltb_spec (answer QuickGame_Init (world st)) 0) as [Hneg | Hpos].
  - repeat split; try reflexivity; try (intros; assumption). lia.
  - repeat split; try (intros; lia); try discriminate.
Qed.

(** ** Input polling *)

(** C6: [button_pressed], [button_held] and [button_released] hand the mask
    to their engine function unchanged and return what it answers; they never
    throw. *)
Theorem Input_buttons_forward {O : Type} (buttons : Z) (st : St E R O) :
  Input_button_pressed buttons st =
    (Normal (answer (QuickGame_Button_Pressed buttons) (world st)),
     mkSt (obj st) (moved (QuickGame_Button_Pressed buttons) (world st))
          (trace st ++ [QuickGame_Button_Pressed buttons])) /\
  Input_button_held buttons st =
    (Normal (answer (QuickGame_Button_Held buttons) (world st)),
     mkSt (obj st) (moved (QuickGame_Button_Held buttons) (world st))
          (trace st ++ [QuickGame_Button_Held buttons])) /\
  Input_button_released buttons st =
    (Normal (answer (QuickGame_Button_Released buttons) (world st)),
     mkSt (obj st) (moved (QuickGame_Button_Released buttons) (world st))
          (trace st ++ [QuickGame_Button_Released buttons])).
Proof.
  unfold Input_button_pressed, Input_button_held, Input_button_released.
  rewrite !call_run. repeat split.
Qed.

(** ** Texture loading *)

(** C5: each Texture constructor throws its runtime error exactly when the
    load call it forwards to answers a null handle; on a non-null answer it
    completes with that handle stored.  The load call is the only engine call
    and carries the constructor's arguments unchanged. *)
Theorem Texture_ctor_throws_iff_null (file : string) (flp vrm : bool)
    (tex_info : QGTexInfo) (st : St E R Texture) :
  (fst (Texture_ctor file flp vrm st) = Throw (runtime_error "Could not load texture!") <->
   answer (QuickGame_Texture_Load file flp vrm) (world st) = NULL) /\
  (answer (QuickGame_Texture_Load file flp vrm) (world st) <> NULL ->
   fst (Texture_ctor file flp vrm st) = Normal tt /\
   Texture_ir (obj (snd (Texture_ctor file flp vrm st))) =
     answer (QuickGame_Texture_Load file flp vrm) (world st)) /\
  makes_calls (Texture_ctor file flp vrm) st [QuickGame_Texture_Load file flp vrm] /\
  (fst (Texture_ctor_info tex_info st) = Throw (runtime_error "Could not load texture!") <->
   answer (QuickGame_Texture_Load_Alt tex_info) (world st) = NULL) /\
  (answer (QuickGame_Texture_Load_Alt tex_info) (world st) <> NULL ->
   fst (Texture_ctor_info tex_info st) = Normal tt /\
   Texture_ir (obj (snd (Texture_ctor_info tex_info st))) =
     answer (QuickGame_Texture_Load_Alt tex_info) (world st)) /\
  makes_calls (Texture_ctor_info tex_info) st [QuickGame_Texture_Load_Alt tex_info].
Proof.
  unfold makes_calls. rewrite Texture_ctor_run, Texture_ctor_info_run.
  cbn zeta. cbn [fst snd obj trace Texture_ir].
  destruct (N.eqb_spec (answer (QuickGame_Texture_Load file flp vrm) (world st)) NULL)
    as [H1 | H1];
  destruct (N.eqb_spec (answer (QuickGame_Texture_Load_Alt tex_info) (world st)) NULL)
    as [H2 | H2];
  repeat split; try reflexivity; try (intros; assumption);
  try discriminate; try (intros; contradiction).
Qed.

(** ** Destruction *)

(** C7: destroying a Mesh, a Texture or a Sprite calls the matching engine
    destroy function once, on the address of the object's handle member, and
    makes no other engine call. *)
Theorem destructors_destroy_once (this : ptr) (stm : St E R Mesh)
    (stt : St E R Texture) (sts : St E R Sprite) :
  makes_calls (Mesh_dtor this) stm
    [QuickGame_Graphics_Destroy_Mesh (Mesh_ir_at this) (Mesh_ir (obj stm))] /\
  makes_calls (Texture_dtor this) stt
    [QuickGame_Texture_Destroy (Texture_ir_at this) (Texture_ir (obj stt))] /\
  makes_calls (Sprite_dtor this) sts
    [QuickGame_Sprite_Destroy (Sprite_ir_at this) (Sprite_ir (obj sts))].
Proof.
  unfold makes_calls, Mesh_dtor.
  rewrite Mesh_delete_data_run, Texture_dtor_run, Sprite_dtor_run.
  repeat split.
Qed.

(** ** Drawing a sprite *)

(** C8: [Sprite::draw()] does nothing at all on a null handle.  On a handle
    that designates a sprite structure it stores the object's [transform] and
    [layer] there, leaves the rest of the structure as it was, and calls
    [QuickGame_Sprite_Draw] once; the object's [color] has no influence on
    the outcome, the world or the calls made. *)
Theorem Sprite_draw_spec (st : St E R Sprite) :
  (Sprite_ir (obj st) = NULL -> Sprite_draw st = (Normal tt, st)) /\
  (forall s : QGSprite R,
     Sprite_ir (obj st) <> NULL ->
     sprites (world st) !! Sprite_ir (obj st) = Some s ->
     Sprite_draw st =
       (Normal tt,
        mkSt (obj st)
             (moved (QuickGame_Sprite_Draw (Sprite_ir (obj st)))
                (mkWorld
                   (<[Sprite_ir (obj st) :=
                        mkQGSprite (Sprite_transform (obj st)) (Sprite_layer (obj st))
                                   (sprite_rest s)]> (sprites (world st)))
                   (meshes (world st)) (mem (world st)) (private (world st))))
             (trace st ++ [QuickGame_Sprite_Draw (Sprite_ir (obj st))]))) /\
  (forall c' : QGColor,
     let st' := mkSt (mkSprite (Sprite_transform (obj st)) (Sprite_layer (obj st)) c'
                               (Sprite_ir (obj st)))
                     (world st) (trace st) in
     fst (Sprite_draw st') = fst (Sprite_draw st) /\
     world (snd (Sprite_draw st')) = world (snd (Sprite_draw st)) /\
     trace (snd (Sprite_draw st')) = trace (snd (Sprite_draw st))).
Proof.
  split; [apply Sprite_draw_null |].
  split; [intros s Hheld Hlive; apply (Sprite_draw_live st s Hheld Hlive) |].
  intros c' st'.
  destruct (N.eq_dec (Sprite_ir (obj st)) NULL) as [Hnull | Hheld].
  - rewrite (Sprite_draw_null st Hnull), (Sprite_draw_null st' Hnull).
    repeat split.
  - destruct (sprites (world st) !! Sprite_ir (obj st)) as [s |] eqn:Hlive.
    + rewrite (Sprite_draw_live st s Hheld Hlive), (Sprite_draw_live st' s Hheld Hlive).
      repeat split.
    + rewrite (Sprite_draw_dangling st Hheld Hlive), (Sprite_draw_dangling st' Hheld Hlive).
      repeat split.
Qed.

(** ** Constructing a sprite *)

(** C10: for every position and size, both Sprite constructors (the first
    one given a Texture object) store [transform = {position, 0, size}],
    [layer = 0] and [color = 0xFFFFFFFF] before they call the engine's create
    function, and store the handle after it.  The three members hold these
    values when the constructor ends, whether the create call failed, and the
    constructor throws, or not. *)
Theorem Sprite_ctors_initialise_members (pos size : QGVector2) (t : Texture)
    (tex_info : QGTexInfo) (st : St E R Sprite) :
  (steps_of (Sprite_ctor_logged pos size (Some t)) st =
     [Store_transform (mkTransform2D pos 0%Z size);
      Store_layer 0%Z;
      Store_color (mkColor 0xFFFFFFFF%Z);
      Engine_call (QuickGame_Sprite_Create pos size (Texture_ir t));
      Store_ir (answer (QuickGame_Sprite_Create pos size (Texture_ir t)) (world st))] /\
   fst (Sprite_ctor pos size (Some t) st) =
     (if answer (QuickGame_Sprite_Create pos size (Texture_ir t)) (world st) =? NULL
      then Throw (runtime_error "Could not make sprite!") else Normal tt) /\
   Sprite_transform (obj (snd (Sprite_ctor pos size (Some t) st))) =
     mkTransform2D pos 0%Z size /\
   Sprite_layer (obj (snd (Sprite_ctor pos size (Some t) st))) = 0%Z /\
   Sprite_color (obj (snd (Sprite_ctor pos size (Some t) st))) = mkColor 0xFFFFFFFF%Z) /\
  (steps_of (Sprite_ctor_contained_logged pos size tex_info) st =
     [Store_transform (mkTransform2D pos 0%Z size);
      Store_layer 0%Z;
      Store_color (mkColor 0xFFFFFFFF%Z);
      Engine_call (QuickGame_Sprite_Create_Contained (x pos) (y pos) (x size) (y size)
                     tex_info);
      Store_ir (answer (QuickGame_Sprite_Create_Contained (x pos) (y pos) (x size)
                          (y size) tex_info) (world st))] /\
   fst (Sprite_ctor_contained pos size tex_info st) =
     (if answer (QuickGame_Sprite_Create_Contained (x pos) (y pos) (x size) (y size)
                   tex_info) (world st) =? NULL
      then Throw (runtime_error "Could not make sprite!") else Normal tt) /\
   Sprite_transform (obj (snd (Sprite_ctor_contained pos size tex_info st))) =
     mkTransform2D pos 0%Z size /\
   Sprite_layer (obj (snd (Sprite_ctor_contained pos size tex_info st))) = 0%Z /\
   Sprite_color (obj (snd (Sprite_ctor_contained pos size tex_info st))) =
     mkColor 0xFFFFFFFF%Z).
Proof.
  unfold steps_of.
  rewrite Sprite_ctor_logged_run, Sprite_ctor_contained_logged_run.
  rewrite Sprite_ctor_run, Sprite_ctor_contained_run.
  cbn zeta.
  cbn [fst snd obj steps app Sprite_transform Sprite_layer Sprite_color].
  repeat split.
Qed.

(** ** Adding data to a mesh *)

Lemma Mesh_add_data_frame (verts : ptr) (vcount : N) (idx : ptr) (icount : N)
    (st : St E R Mesh) :
  obj (snd (Mesh_add_data verts vcount idx icount st)) = obj st /\
  trace (snd (Mesh_add_data verts vcount idx icount st)) = trace st.
Proof.
  destruct (N.eq_dec verts NULL) as [Hv | Hv];
    [rewrite Mesh_add_data_null by (left; exact Hv); split; reflexivity |].
  destruct (N.eq_dec idx NULL) as [Hi | Hi];
    [rewrite Mesh_add_data_null by (right; exact Hi); split; reflexivity |].
  destruct (meshes (world st) !! Mesh_ir (obj st)) as [m |] eqn:Hlive.
  - rewrite (Mesh_add_data_live _ _ _ _ st m Hv Hi Hlive). split; reflexivity.
  - rewrite (Mesh_add_data_no_mesh _ _ _ _ st Hv Hi Hlive). split; reflexivity.
Qed.

Lemma Mesh_add_data_throws (verts : ptr) (vcount : N) (idx : ptr) (icount : N)
    (st : St E R Mesh) (e : exception) :
  fst (Mesh_add_data verts vcount idx icount st) = Throw e <->
  (verts = NULL \/ idx = NULL) /\ e = runtime_error "Mesh data null!".
Proof.
  destruct (N.eq_dec verts NULL) as [Hv | Hv].
  { rewrite Mesh_add_data_null by (left; exact Hv). cbn [fst]. split.
    - intros [= <-]. split; [left; exact Hv | reflexivity].
    - intros [_ ->]. reflexivity. }
  destruct (N.eq_dec idx NULL) as [Hi | Hi].
  { rewrite Mesh_add_data_null by (right; exact Hi). cbn [fst]. split.
    - intros [= <-]. split; [right; exact Hi | reflexivity].
    - intros [_ ->]. reflexivity. }
  destruct (meshes (world st) !! Mesh_ir (obj st)) as [m |] eqn:Hlive.
  - rewrite (Mesh_add_data_live _ _ _ _ st m Hv Hi Hlive). cbn [fst].
    split; [discriminate | intros [[? | ?] _]; contradiction].
  - rewrite (Mesh_add_data_no_mesh _ _ _ _ st Hv Hi Hlive). cbn [fst].
    split; [discriminate | intros [[? | ?] _]; contradiction].
Qed.

(** C9, amended: [Mesh::add_data] throws its runtime error exactly when
    [verts] or [indices] is null, never makes an engine call and never
    changes the handle.  When both pointers are non-null and the handle
    designates an engine mesh, it returns normally having copied
    [vcount * size] bytes (a [size_t] product, [size] picked by the mesh's
    vertex type) from [verts] to the mesh's data buffer and then
    [icount * sizeof(u16)] bytes from [indices] to its index buffer. *)
Theorem Mesh_add_data_spec (verts : ptr) (vcount : N) (idx : ptr) (icount : N)
    (st : St E R Mesh) :
  (fst (Mesh_add_data verts vcount idx icount st) =
     Throw (runtime_error "Mesh data null!") <-> verts = NULL \/ idx = NULL) /\
  makes_calls (Mesh_add_data verts vcount idx icount) st [] /\
  Mesh_ir (obj (snd (Mesh_add_data verts vcount idx icount st))) = Mesh_ir (obj st) /\
  (forall m : QGVMesh,
     verts <> NULL -> idx <> NULL ->
     meshes (world st) !! Mesh_ir (obj st) = Some m ->
     fst (Mesh_add_data verts vcount idx icount st) = Normal tt /\
     mem (world (snd (Mesh_add_data verts vcount idx icount st))) =
       memcpy (indices m) idx (usize_mul icount sizeof_u16)
         (memcpy (data m) verts
            (usize_mul vcount
               (if (type m =? QG_VERTEX_TYPE_TEXTURED)%Z
                then sizeof_QGTexturedVertex else sizeof_QGColoredVertex))
            (mem (world st))) /\
     sprites (world (snd (Mesh_add_data verts vcount idx icount st))) = sprites (world st) /\
     meshes (world (snd (Mesh_add_data verts vcount idx icount st))) = meshes (world st) /\
     private (world (snd (Mesh_add_data verts vcount idx icount st))) = private (world st)).
Proof.
  split.
  { rewrite Mesh_add_data_throws. split; [intros [H _]; exact H | intros H; split; [exact H | reflexivity]]. }
  split.
  { unfold makes_calls. rewrite app_nil_r. apply Mesh_add_data_frame. }
  split.
  { f_equal. apply Mesh_add_data_frame. }
  intros m Hv Hi Hlive. rewrite (Mesh_add_data_live _ _ _ _ st m Hv Hi Hlive).
  repeat split.
Qed.

(** ** Failure reporting *)

(** C1, amended: the wrappers that check the engine's answer turn a failure
    into a thrown runtime error: [QuickGame::init] on a negative status,
    [Mesh(type, vcount, icount)] and [create_mesh] on a mesh without a handle,
    both Texture constructors and both Sprite constructors on a null handle.
    [Graphics::init] checks nothing and never throws; [allocate] and
    [allocate_aligned] return the engine's pointer as it is, null included. *)
Theorem checked_wrappers_throw_on_failure {O : Type} (st : St E R O)
    (stm : St E R Mesh) (stt : St E R Texture) (sts : St E R Sprite)
    (this : ptr) (ty : Z) (vcount icount : N) (file : string) (flp vrm : bool)
    (tex_info : QGTexInfo) (pos size : QGVector2) (t : Texture) (n a : N) :
  ((answer QuickGame_Init (world st) < 0)%Z ->
   fst (init st) = Throw (runtime_error "Failed to initialize!")) /\
  (answer (QuickGame_Graphics_Create_Mesh ty vcount icount) (world stm) = NULL ->
   fst (Mesh_ctor this ty vcount icount stm) =
     Throw (runtime_error "Mesh creation failed!")) /\
  (Mesh_ir (obj stm) = NULL ->
   answer (QuickGame_Graphics_Create_Mesh ty vcount icount) (world stm) = NULL ->
   fst (Mesh_create_mesh this ty vcount icount stm) =
     Throw (runtime_error "Mesh creation failed!")) /\
  (answer (QuickGame_Texture_Load file flp vrm) (world stt) = NULL ->
   fst (Texture_ctor file flp vrm stt) =
     Throw (runtime_error "Could not load texture!")) /\
  (answer (QuickGame_Texture_Load_Alt tex_info) (world stt) = NULL ->
   fst (Texture_ctor_info tex_info stt) =
     Throw (runtime_error "Could not load texture!")) /\
  (answer (QuickGame_Sprite_Create pos size (Texture_ir t)) (world sts) = NULL ->
   fst (Sprite_ctor pos size (Some t) sts) =
     Throw (runtime_error "Could not make sprite!")) /\
  (answer (QuickGame_Sprite_Create_Contained (x pos) (y pos) (x size) (y size) tex_info)
          (world sts) = NULL ->
   fst (Sprite_ctor_contained pos size tex_info sts) =
     Throw (runtime_error "Could not make sprite!")) /\
  fst (Graphics_init st) = Normal tt /\
  allocate n st =
    (Normal (answer (QuickGame_Allocate n) (world st)),
     mkSt (obj st) (moved (QuickGame_Allocate n) (world st))
          (trace st ++ [QuickGame_Allocate n])) /\
  allocate_aligned a n st =
    (Normal (answer (QuickGame_Allocate_Aligned a n) (world st)),
     mkSt (obj st) (moved (QuickGame_Allocate_Aligned a n) (world st))
          (trace st ++ [QuickGame_Allocate_Aligned a n])).
Proof.
  split.
  { intros Hneg. rewrite init_run. cbn [fst].
    apply Z.ltb_lt in Hneg. rewrite Hneg. reflexivity. }
  split.
  { intros Hnull. rewrite Mesh_ctor_run. cbn zeta. cbn [fst].
    rewrite Hnull. reflexivity. }
  split.
  { intros Hfresh Hnull. rewrite Mesh_create_mesh_run_fresh by exact Hfresh.
    cbn zeta. cbn [fst]. rewrite Hnull. reflexivity. }
  split.
  { intros Hnull. rewrite Texture_ctor_run. cbn zeta. cbn [fst].
    rewrite Hnull. reflexivity. }
  split.
  { intros Hnull. rewrite Texture_ctor_info_run. cbn zeta. cbn [fst].
    rewrite Hnull. reflexivity. }
  split.
  { intros Hnull. rewrite Sprite_ctor_run. cbn zeta. cbn [fst].
    rewrite Hnull. reflexivity. }
  split.
  { intros Hnull. rewrite Sprite_ctor_contained_run. cbn zeta. cbn [fst].
    rewrite Hnull. reflexivity. }
  split; [rewrite Graphics_init_run; reflexivity |].
  unfold allocate, allocate_aligned. rewrite !call_run. split; reflexivity.
Qed.

(** ** The handle through an object's life *)

Lemma Sprite_draw_frame (st : St E R Sprite) :
  obj (snd (Sprite_draw st)) = obj st.
Proof.
  destruct (N.eq_dec (Sprite_ir (obj st)) NULL) as [Hnull | Hheld];
    [rewrite Sprite_draw_null by exact Hnull; reflexivity |].
  destruct (sprites (world st) !! Sprite_ir (obj st)) as [s |] eqn:Hlive.
  - rewrite (Sprite_draw_live st s Hheld Hlive). reflexivity.
  - rewrite (Sprite_draw_dangling st Hheld Hlive). reflexivity.
Qed.

Lemma guarded_handle_not_null {A : Type} (h : ptr) (e : exception) (a : A) :
  returns (if h =? NULL then Throw e else Normal a) = true -> h <> NULL.
Proof.
  destruct (N.eqb_spec h NULL) as [Heq | Hne]; [discriminate | intros _; exact Hne].
Qed.

(** C2, amended: after a constructor other than [Mesh()] returns normally
    the stored handle is non-null, and so it is after [create_mesh] returns
    normally; [Mesh()] stores the null handle.  After destruction, and after
    [delete_data], the handle is what the engine's destroy function left in
    it: null for an engine that nulls the handle it is given.  No other
    method changes the handle. *)
Theorem handle_lifecycle (this : ptr) (ty : Z) (vcount icount : N)
    (file : string) (flp vrm : bool) (tex_info : QGTexInfo)
    (pos size : QGVector2) (texture : option Texture) (other : Sprite)
    (verts idx : ptr)
    (stm : St E R Mesh) (stt : St E R Texture) (sts : St E R Sprite) :
  (returns (fst (Mesh_ctor this ty vcount icount stm)) = true ->
   Mesh_ir (obj (snd (Mesh_ctor this ty vcount icount stm))) <> NULL) /\
  (returns (fst (Texture_ctor file flp vrm stt)) = true ->
   Texture_ir (obj (snd (Texture_ctor file flp vrm stt))) <> NULL) /\
  (returns (fst (Texture_ctor_info tex_info stt)) = true ->
   Texture_ir (obj (snd (Texture_ctor_info tex_info stt))) <> NULL) /\
  (returns (fst (Sprite_ctor pos size texture sts)) = true ->
   Sprite_ir (obj (snd (Sprite_ctor pos size texture sts))) <> NULL) /\
  (returns (fst (Sprite_ctor_contained pos size tex_info sts)) = true ->
   Sprite_ir (obj (snd (Sprite_ctor_contained pos size tex_info sts))) <> NULL) /\
  (returns (fst (Mesh_ctor_default stm)) = true /\
   Mesh_ir (obj (snd (Mesh_ctor_default stm))) = NULL) /\
  (returns (fst (Mesh_create_mesh this ty vcount icount stm)) = true ->
   Mesh_ir (obj (snd (Mesh_create_mesh this ty vcount icount stm))) <> NULL) /\
  (Mesh_ir (obj (snd (Mesh_dtor this stm))) =
     answer (QuickGame_Graphics_Destroy_Mesh (Mesh_ir_at this) (Mesh_ir (obj stm)))
            (world stm) /\
   Mesh_ir (obj (snd (Mesh_delete_data this stm))) =
     answer (QuickGame_Graphics_Destroy_Mesh (Mesh_ir_at this) (Mesh_ir (obj stm)))
            (world stm) /\
   Texture_ir (obj (snd (Texture_dtor this stt))) =
     answer (QuickGame_Texture_Destroy (Texture_ir_at this) (Texture_ir (obj stt)))
            (world stt) /\
   Sprite_ir (obj (snd (Sprite_dtor this sts))) =
     answer (QuickGame_Sprite_Destroy (Sprite_ir_at this) (Sprite_ir (obj sts)))
            (world sts)) /\
  (destroy_nulls_handle ->
   Mesh_ir (obj (snd (Mesh_dtor this stm))) = NULL /\
   Mesh_ir (obj (snd (Mesh_delete_data this stm))) = NULL /\
   Texture_ir (obj (snd (Texture_dtor this stt))) = NULL /\
   Sprite_ir (obj (snd (Sprite_dtor this sts))) = NULL) /\
  (Mesh_ir (obj (snd (Mesh_add_data verts vcount idx icount stm))) = Mesh_ir (obj stm) /\
   Mesh_ir (obj (snd (Mesh_draw stm))) = Mesh_ir (obj stm) /\
   Texture_ir (obj (snd (Texture_bind stt))) = Texture_ir (obj stt) /\
   Texture_ir (obj (snd (Texture_unbind stt))) = Texture_ir (obj stt) /\
   Sprite_ir (obj (snd (Sprite_draw sts))) = Sprite_ir (obj sts) /\
   Sprite_ir (obj (snd (Sprite_intersects other sts))) = Sprite_ir (obj sts) /\
   Sprite_ir (obj (snd (Sprite_intersection other sts))) = Sprite_ir (obj sts)).
Proof.
  split.
  { rewrite Mesh_ctor_run. cbn zeta. cbn [fst snd obj Mesh_ir].
    apply guarded_handle_not_null. }
  split.
  { rewrite Texture_ctor_run. cbn zeta. cbn [fst snd obj Texture_ir].
    apply guarded_handle_not_null. }
  split.
  { rewrite Texture_ctor_info_run. cbn zeta. cbn [fst snd obj Texture_ir].
    apply guarded_handle_not_null. }
  split.
  { destruct texture as [t |].
    - rewrite Sprite_ctor_run. cbn zeta. cbn [fst snd obj Sprite_ir].
      apply guarded_handle_not_null.
    - rewrite Sprite_ctor_no_texture. cbn [fst returns]. discriminate. }
  split.
  { rewrite Sprite_ctor_contained_run. cbn zeta. cbn [fst snd obj Sprite_ir].
    apply guarded_handle_not_null. }
  split; [split; reflexivity |].
  split.
  { destruct (N.eq_dec (Mesh_ir (obj stm)) NULL) as [Hfresh | Hheld].
    - rewrite Mesh_create_mesh_run_fresh by exact Hfresh.
      cbn zeta. cbn [fst snd obj Mesh_ir]. apply guarded_handle_not_null.
    - rewrite Mesh_create_mesh_run_held by exact Hheld.
      cbn zeta. cbn [fst snd obj Mesh_ir]. apply guarded_handle_not_null. }
  unfold Mesh_dtor.
  rewrite Mesh_delete_data_run, Texture_dtor_run, Sprite_dtor_run.
  cbn zeta. cbn [fst snd obj Mesh_ir Texture_ir Sprite_ir].
  split; [repeat split |].
  split.
  { intros Hnulls. repeat split; apply Hnulls. }
  split; [f_equal; apply Mesh_add_data_frame |].
  rewrite Sprite_draw_frame.
  unfold Mesh_draw, Texture_bind, Texture_unbind, Sprite_intersects, Sprite_intersection.
  run. repeat split.
Qed.

(** ** Engine calls per operation *)

Lemma guarded_throws_only {A : Type} (b : bool) (e e' : exception) (a : A) :
  (if b then Throw e else Normal a) = Throw e' -> e' = e.
Proof. destruct b; [intros [= <-]; reflexivity | discriminate]. Qed.

(** C4, amended: the free functions each make exactly one engine call, with
    their arguments unchanged, and so do [Mesh::draw], [Mesh::delete_data],
    the Texture constructors, [Texture::bind], [Texture::unbind], the Sprite
    constructors (given a Texture object), [Sprite::intersects],
    [Sprite::intersection] and the three destructors.  [Mesh(type, vcount, icount)], and [create_mesh]
    on a mesh without a handle, make exactly one call, to
    [QuickGame_Graphics_Create_Mesh].  [Mesh()], [Mesh::add_data] and
    [Sprite::draw] on a null handle make no engine call; [Sprite::draw] on a
    live handle makes one.  An operation that can throw has one error to
    throw. *)
Theorem wrapper_engine_calls {O : Type} (st : St E R O)
    (stm : St E R Mesh) (stt : St E R Texture) (sts : St E R Sprite)
    (this : ptr) (ty : Z) (vcount icount : N) (file : string) (flp vrm : bool)
    (tex_info : QGTexInfo) (pos size : QGVector2) (t : Texture) (other : Sprite)
    (verts idx src camera : ptr) (n a : N) (mode vsync : bool) (c : QGColor)
    (buttons : Z) :
  (makes_calls init st [QuickGame_Init] /\
   makes_calls running st [QuickGame_Running] /\
   makes_calls terminate st [QuickGame_Terminate] /\
   makes_calls request_exit st [QuickGame_Request_Exit] /\
   makes_calls (allocate n) st [QuickGame_Allocate n] /\
   makes_calls (allocate_aligned a n) st [QuickGame_Allocate_Aligned a n] /\
   makes_calls (destroy src) st [QuickGame_Destroy src]) /\
  (makes_calls Graphics_init st [QuickGame_Graphics_Init] /\
   makes_calls Graphics_terminate st [QuickGame_Graphics_Terminate] /\
   makes_calls (Graphics_set_dialog_mode mode) st [QuickGame_Graphics_Set_Dialog_Mode mode] /\
   makes_calls Graphics_start_frame st [QuickGame_Graphics_Start_Frame] /\
   makes_calls (Graphics_end_frame vsync) st [QuickGame_Graphics_End_Frame vsync] /\
   makes_calls (Graphics_set_clear_color c) st [QuickGame_Graphics_Set_Clear_Color c] /\
   makes_calls Graphics_clear st [QuickGame_Graphics_Clear] /\
   makes_calls Graphics_set2D st [QuickGame_Graphics_Set2D] /\
   makes_calls (Graphics_set_camera camera) st [QuickGame_Graphics_Set_Camera camera] /\
   makes_calls Graphics_unset_camera st [QuickGame_Graphics_Unset_Camera]) /\
  (makes_calls Input_init st [QuickGame_Input_Init] /\
   makes_calls Input_update st [QuickGame_Input_Update] /\
   makes_calls (Input_button_pressed buttons) st [QuickGame_Button_Pressed buttons] /\
   makes_calls (Input_button_held buttons) st [QuickGame_Button_Held buttons] /\
   makes_calls (Input_button_released buttons) st [QuickGame_Button_Released buttons]) /\
  (makes_calls Mesh_ctor_default stm [] /\
   makes_calls (Mesh_ctor this ty vcount icount) stm
     [QuickGame_Graphics_Create_Mesh ty vcount icount] /\
   (Mesh_ir (obj stm) = NULL ->
    makes_calls (Mesh_create_mesh this ty vcount icount) stm
      [QuickGame_Graphics_Create_Mesh ty vcount icount]) /\
   makes_calls (Mesh_add_data verts vcount idx icount) stm [] /\
   makes_calls Mesh_draw stm [QuickGame_Graphics_Draw_Mesh (Mesh_ir (obj stm))] /\
   makes_calls (Mesh_delete_data this) stm
     [QuickGame_Graphics_Destroy_Mesh (Mesh_ir_at this) (Mesh_ir (obj stm))] /\
   makes_calls (Mesh_dtor this) stm
     [QuickGame_Graphics_Destroy_Mesh (Mesh_ir_at this) (Mesh_ir (obj stm))]) /\
  (makes_calls (Texture_ctor file flp vrm) stt [QuickGame_Texture_Load file flp vrm] /\
   makes_calls (Texture_ctor_info tex_info) stt [QuickGame_Texture_Load_Alt tex_info] /\
   makes_calls Texture_bind stt [QuickGame_Texture_Bind (Texture_ir (obj stt))] /\
   makes_calls Texture_unbind stt [QuickGame_Texture_Unbind] /\
   makes_calls (Texture_dtor this) stt
     [QuickGame_Texture_Destroy (Texture_ir_at this) (Texture_ir (obj stt))]) /\
  (makes_calls (Sprite_ctor pos size (Some t)) sts
     [QuickGame_Sprite_Create pos size (Texture_ir t)] /\
   makes_calls (Sprite_ctor_contained pos size tex_info) sts
     [QuickGame_Sprite_Create_Contained (x pos) (y pos) (x size) (y size) tex_info] /\
   (Sprite_ir (obj sts) = NULL -> makes_calls Sprite_draw sts []) /\
   (forall s : QGSprite R,
      Sprite_ir (obj sts) <> NULL ->
      sprites (world sts) !! Sprite_ir (obj sts) = Some s ->
      makes_calls Sprite_draw sts [QuickGame_Sprite_Draw (Sprite_ir (obj sts))]) /\
   makes_calls (Sprite_intersects other) sts
     [QuickGame_Sprite_Intersects (Sprite_ir (obj sts)) (Sprite_ir other)] /\
   makes_calls (Sprite_intersection other) sts
     [QuickGame_Sprite_Intersect_Direction (Sprite_ir (obj sts)) (Sprite_ir other)] /\
   makes_calls (Sprite_dtor this) sts
     [QuickGame_Sprite_Destroy (Sprite_ir_at this) (Sprite_ir (obj sts))]) /\
  (throws_only init st (runtime_error "Failed to initialize!") /\
   throws_only (Mesh_ctor this ty vcount icount) stm
     (runtime_error "Mesh creation failed!") /\
   (Mesh_ir (obj stm) = NULL ->
    throws_only (Mesh_create_mesh this ty vcount icount) stm
      (runtime_error "Mesh creation failed!")) /\
   throws_only (Mesh_add_data verts vcount idx icount) stm
     (runtime_error "Mesh data null!") /\
   throws_only (Texture_ctor file flp vrm) stt (runtime_error "Could not load texture!") /\
   throws_only (Texture_ctor_info tex_info) stt
     (runtime_error "Could not load texture!") /\
   throws_only (Sprite_ctor pos size (Some t)) sts
     (runtime_error "Could not make sprite!") /\
   throws_only (Sprite_ctor_contained pos size tex_info) sts
     (runtime_error "Could not make sprite!")).
Proof.
  split.
  { unfold makes_calls, running, terminate, request_exit, allocate,
      allocate_aligned, destroy.
    rewrite init_run, !call_run. repeat split. }
  split.
  { unfold makes_calls, Graphics_terminate, Graphics_set_dialog_mode,
      Graphics_start_frame, Graphics_end_frame, Graphics_set_clear_color,
      Graphics_clear, Graphics_set2D, Graphics_set_camera, Graphics_unset_camera.
    rewrite Graphics_init_run, !call_run. repeat split. }
  split.
  { unfold makes_calls, Input_init, Input_update, Input_button_pressed,
      Input_button_held, Input_button_released.
    rewrite !call_run. repeat split. }
  split.
  { unfold makes_calls.
    split; [cbn; rewrite app_nil_r; reflexivity |].
    split; [rewrite Mesh_ctor_run; reflexivity |].
    split; [intros Hfresh; rewrite Mesh_create_mesh_run_fresh by exact Hfresh;
            reflexivity |].
    split; [rewrite app_nil_r; apply Mesh_add_data_frame |].
    split; [unfold Mesh_draw; run; reflexivity |].
    unfold Mesh_dtor. rewrite Mesh_delete_data_run. split; reflexivity. }
  split.
  { unfold makes_calls, Texture_bind, Texture_unbind.
    rewrite Texture_ctor_run, Texture_ctor_info_run, Texture_dtor_run. run.
    repeat split. }
  split.
  { unfold makes_calls.
    split; [rewrite Sprite_ctor_run; reflexivity |].
    split; [rewrite Sprite_ctor_contained_run; reflexivity |].
    split; [intros Hnull; rewrite Sprite_draw_null by exact Hnull;
            cbn [snd]; rewrite app_nil_r; reflexivity |].
    split; [intros s Hheld Hlive; rewrite (Sprite_draw_live sts s Hheld Hlive);
            reflexivity |].
    rewrite Sprite_dtor_run.
    unfold Sprite_intersects, Sprite_intersection. run. repeat split. }
  unfold throws_only.
  split; [intros e'; rewrite init_run; apply guarded_throws_only |].
  split; [intros e'; rewrite Mesh_ctor_run; apply guarded_throws_only |].
  split; [intros Hfresh e'; rewrite Mesh_create_mesh_run_fresh by exact Hfresh;
          apply guarded_throws_only |].
  split; [intros e' Hthrow; apply Mesh_add_data_throws in Hthrow; apply Hthrow |].
  split; [intros e'; rewrite Texture_ctor_run; apply guarded_throws_only |].
  split; [intros e'; rewrite Texture_ctor_info_run; apply guarded_throws_only |].
  split; [intros e'; rewrite Sprite_ctor_run; apply guarded_throws_only |].
  intros e'; rewrite Sprite_ctor_contained_run; apply guarded_throws_only.
Qed.

(** ** The life of a mesh handle, operation after operation *)

(** X1: [create_mesh] on a mesh that holds a handle makes one engine call,
    the destroy call on [&ir], and none to [QuickGame_Graphics_Create_Mesh];
    it throws exactly when the destroy call left the handle null, which an
    engine that nulls destroyed handles always does. *)
Theorem create_mesh_on_held_handle_destroys (this : ptr) (ty : Z)
    (vcount icount : N) (st : St E R Mesh) :
  Mesh_ir (obj st) <> NULL ->
  makes_calls (Mesh_create_mesh this ty vcount icount) st
    [QuickGame_Graphics_Destroy_Mesh (Mesh_ir_at this) (Mesh_ir (obj st))] /\
  (fst (Mesh_create_mesh this ty vcount icount st) =
     Throw (runtime_error "Mesh creation failed!") <->
   answer (QuickGame_Graphics_Destroy_Mesh (Mesh_ir_at this) (Mesh_ir (obj st)))
          (world st) = NULL) /\
  Mesh_ir (obj (snd (Mesh_create_mesh this ty vcount icount st))) =
    answer (QuickGame_Graphics_Destroy_Mesh (Mesh_ir_at this) (Mesh_ir (obj st)))
           (world st) /\
  (destroy_nulls_handle ->
   fst (Mesh_create_mesh this ty vcount icount st) =
     Throw (runtime_error "Mesh creation failed!") /\
   Mesh_ir (obj (snd (Mesh_create_mesh this ty vcount icount st))) = NULL).
Proof.
  intros Hheld. unfold makes_calls.
  rewrite Mesh_create_mesh_run_held by exact Hheld.
  cbn zeta. cbn [fst snd obj trace Mesh_ir].
  split; [reflexivity |].
  split.
  { destruct (N.eqb_spec
                (answer (QuickGame_Graphics_Destroy_Mesh (Mesh_ir_at this)
                           (Mesh_ir (obj st))) (world st)) NULL) as [Hn | Hn].
    - split; [intros _; exact Hn | reflexivity].
    - split; [discriminate | intros Habs; contradiction]. }
  split; [reflexivity |].
  intros Hnulls.
  destruct (Hnulls (Mesh_ir_at this) (Mesh_ir (obj st)) (world st)) as (Hn & _).
  rewrite Hn. split; reflexivity.
Qed.

(** X2: the documented way to reuse a mesh works on an engine that nulls
    destroyed handles: [delete_data] followed by [create_mesh] makes the
    destroy call and then the create call, stores the created handle, and
    throws exactly when the create call answers null. *)
Theorem delete_data_then_create_mesh (this : ptr) (ty : Z) (vcount icount : N)
    (st : St E R Mesh) :
  destroy_nulls_handle ->
  (_ ← Mesh_delete_data this; Mesh_create_mesh this ty vcount icount) st =
  let d := QuickGame_Graphics_Destroy_Mesh (Mesh_ir_at this) (Mesh_ir (obj st)) in
  let c := QuickGame_Graphics_Create_Mesh ty vcount icount in
  (if answer c (moved d (world st)) =? NULL
   then Throw (runtime_error "Mesh creation failed!") else Normal tt,
   mkSt (mkMesh (answer c (moved d (world st)))) (moved c (moved d (world st)))
        (trace st ++ [d; c])).
Proof.
  intros Hnulls. rewrite bind_run, Mesh_delete_data_run. cbn zeta.
  destruct (Hnulls (Mesh_ir_at this) (Mesh_ir (obj st)) (world st)) as (Hn & _).
  rewrite Mesh_create_mesh_run_fresh by (cbn [obj Mesh_ir]; exact Hn).
  cbn zeta. cbn [obj world trace]. rewrite <- app_assoc. reflexivity.
Qed.

(** X3: no Mesh method guards a null handle.  On a mesh made by [Mesh()],
    [draw] hands null to [QuickGame_Graphics_Draw_Mesh], and the destructor
    gives the destroy function the address of a handle that holds null. *)
Theorem default_mesh_forwards_null (this : ptr) (st : St E R Mesh) :
  (_ ← Mesh_ctor_default; Mesh_draw) st =
    (Normal tt,
     mkSt (mkMesh NULL) (moved (QuickGame_Graphics_Draw_Mesh NULL) (world st))
          (trace st ++ [QuickGame_Graphics_Draw_Mesh NULL])) /\
  makes_calls (_ ← Mesh_ctor_default; Mesh_dtor this) st
    [QuickGame_Graphics_Destroy_Mesh (Mesh_ir_at this) NULL].
Proof.
  unfold makes_calls, Mesh_dtor, Mesh_ctor_default, Mesh_draw.
  split.
  - run. cbn [Mesh_ir].
    match goal with |- (Normal ?u, _) = _ => destruct u end. reflexivity.
  - rewrite bind_run. cbn [put_obj]. rewrite Mesh_delete_data_run. reflexivity.
Qed.

(** X4: after [delete_data] on an engine that nulls destroyed handles, the
    destructor calls the destroy function a second time, now on a null
    handle, and [draw] hands null to the engine. *)
Theorem delete_data_then_destructor (this : ptr) (st : St E R Mesh) :
  destroy_nulls_handle ->
  makes_calls (_ ← Mesh_delete_data this; Mesh_dtor this) st
    [QuickGame_Graphics_Destroy_Mesh (Mesh_ir_at this) (Mesh_ir (obj st));
     QuickGame_Graphics_Destroy_Mesh (Mesh_ir_at this) NULL] /\
  makes_calls (_ ← Mesh_delete_data this; Mesh_draw) st
    [QuickGame_Graphics_Destroy_Mesh (Mesh_ir_at this) (Mesh_ir (obj st));
     QuickGame_Graphics_Draw_Mesh NULL].
Proof.
  intros Hnulls. unfold makes_calls, Mesh_dtor, Mesh_draw.
  destruct (Hnulls (Mesh_ir_at this) (Mesh_ir (obj st)) (world st)) as (Hn & _).
  split.
  - rewrite bind_run, Mesh_delete_data_run. cbv beta iota zeta.
    rewrite Mesh_delete_data_run. cbn zeta. cbn [snd obj world trace Mesh_ir].
    rewrite Hn, <- app_assoc. reflexivity.
  - rewrite bind_run, Mesh_delete_data_run. cbv beta iota zeta. run. cbn [Mesh_ir].
    rewrite Hn, <- app_assoc. reflexivity.
Qed.

(** ** What [add_data] leaves in memory *)

(** X5: on a live mesh and with non-null pointers, [add_data] leaves in
    every byte of the index buffer the byte of [indices] at the same offset
    and in every byte of the data buffer the byte of [verts] at the same
    offset, where the source of the one is not overwritten by the other copy,
    and it changes no byte outside the two buffers.  The two byte counts are
    [size_t] products: they equal [vcount * size] and [icount * 2] when these
    fit in [size_t]. *)
Theorem add_data_memory (verts : ptr) (vcount : N) (idx : ptr) (icount : N)
    (st : St E R Mesh) (m : QGVMesh) :
  verts <> NULL -> idx <> NULL ->
  meshes (world st) !! Mesh_ir (obj st) = Some m ->
  let n1 := usize_mul vcount (vertex_size m) in
  let n2 := usize_mul icount sizeof_u16 in
  let mem' := mem (world (snd (Mesh_add_data verts vcount idx icount st))) in
  (forall i : N, i < n2 ->
     idx + i < data m \/ data m + n1 <= idx + i ->
     mem' (indices m + i) = mem (world st) (idx + i)) /\
  (forall j : N, j < n1 ->
     data m + j < indices m \/ indices m + n2 <= data m + j ->
     mem' (data m + j) = mem (world st) (verts + j)) /\
  (forall a : ptr,
     a < data m \/ data m + n1 <= a ->
     a < indices m \/ indices m + n2 <= a ->
     mem' a = mem (world st) a) /\
  (vcount * vertex_size m < 2 ^ usize_bits -> n1 = vcount * vertex_size m) /\
  (icount * sizeof_u16 < 2 ^ usize_bits -> n2 = icount * sizeof_u16).
Proof.
  intros Hv Hi Hlive n1 n2 mem'. subst mem'.
  rewrite (Mesh_add_data_live _ _ _ _ st m Hv Hi Hlive).
  cbn [snd world mem with_mesh_data]. fold n1 n2.
  split.
  { intros i Hin Hsrc. rewrite memcpy_inside by exact Hin.
    apply memcpy_outside. exact Hsrc. }
  split.
  { intros j Hjn Hdst. rewrite memcpy_outside by exact Hdst.
    apply memcpy_inside. exact Hjn. }
  split.
  { intros a Ha1 Ha2. rewrite memcpy_outside by exact Ha2.
    apply memcpy_outside. exact Ha1. }
  split; intros Hfit; apply usize_mul_small; exact Hfit.
Qed.

(** X6: [add_data] with no vertices and no indices returns normally and
    leaves every byte of memory as it was. *)
Theorem add_data_of_nothing (verts idx : ptr) (st : St E R Mesh) (m : QGVMesh) :
  verts <> NULL -> idx <> NULL ->
  meshes (world st) !! Mesh_ir (obj st) = Some m ->
  fst (Mesh_add_data verts 0 idx 0 st) = Normal tt /\
  forall a : ptr,
    mem (world (snd (Mesh_add_data verts 0 idx 0 st))) a = mem (world st) a.
Proof.
  intros Hv Hi Hlive.
  rewrite (Mesh_add_data_live _ _ _ _ st m Hv Hi Hlive).
  split; [reflexivity |]. intros a.
  cbn [snd world mem with_mesh_data]. unfold usize_mul.
  rewrite !N.mul_0_l, N.Div0.mod_0_l.
  rewrite memcpy_outside by lia. apply memcpy_outside. lia.
Qed.

(** X7: the vertex byte count is taken modulo [2 ^ usize_bits].  When
    [vcount * size] is a multiple of it, [add_data] still returns normally
    but copies no vertex byte: memory is as the copy of the indices alone
    leaves it. *)
Theorem add_data_vertex_count_wraps (verts : ptr) (vcount : N) (idx : ptr)
    (icount : N) (st : St E R Mesh) (m : QGVMesh) (k : N) :
  verts <> NULL -> idx <> NULL ->
  meshes (world st) !! Mesh_ir (obj st) = Some m ->
  vcount * vertex_size m = k * 2 ^ usize_bits ->
  fst (Mesh_add_data verts vcount idx icount st) = Normal tt /\
  forall a : ptr,
    mem (world (snd (Mesh_add_data verts vcount idx icount st))) a =
    memcpy (indices m) idx (usize_mul icount sizeof_u16) (mem (world st)) a.
Proof.
  intros Hv Hi Hlive Hwrap.
  rewrite (Mesh_add_data_live _ _ _ _ st m Hv Hi Hlive).
  split; [reflexivity |]. intros a.
  cbn [snd world mem with_mesh_data]. unfold usize_mul at 2.
  rewrite Hwrap, N.Div0.mod_mul. unfold memcpy at 1 3.
  destruct ((indices m <=? a) && (a <? indices m + usize_mul icount sizeof_u16));
    apply memcpy_outside; lia.
Qed.

(** X8: [add_data] is all or nothing.  A null [verts] or [indices] makes
    it throw before it reads the mesh or copies anything, also when only one
    of the two is null and also on a mesh without a handle; and whenever it
    does not return normally, object, memory and trace are exactly as
    before. *)
Theorem add_data_null_argument_is_atomic (verts : ptr) (vcount : N) (idx : ptr)
    (icount : N) (st : St E R Mesh) :
  (verts = NULL \/ idx = NULL ->
   Mesh_add_data verts vcount idx icount st =
   (Throw (runtime_error "Mesh data null!"), st)) /\
  (returns (fst (Mesh_add_data verts vcount idx icount st)) = false ->
   snd (Mesh_add_data verts vcount idx icount st) = st).
Proof.
  split; [apply Mesh_add_data_null |].
  destruct (N.eq_dec verts NULL) as [Hv | Hv];
    [rewrite Mesh_add_data_null by (left; exact Hv); reflexivity |].
  destruct (N.eq_dec idx NULL) as [Hi | Hi];
    [rewrite Mesh_add_data_null by (right; exact Hi); reflexivity |].
  destruct (meshes (world st) !! Mesh_ir (obj st)) as [m |] eqn:Hlive.
  - rewrite (Mesh_add_data_live _ _ _ _ st m Hv Hi Hlive). discriminate.
  - rewrite (Mesh_add_data_no_mesh _ _ _ _ st Hv Hi Hlive). reflexivity.
Qed.

(** ** Construction, use and destruction together *)

(** X9: no constructor reads a member before it writes it.  Run on the
    same world, a constructor gives the same outcome, object, world and trace
    whatever the object's storage held before. *)
Theorem constructors_ignore_prior_storage (m1 m2 : Mesh) (t1 t2 : Texture)
    (s1 s2 : Sprite) (w : World E R) (tr : list EngineCall)
    (this : ptr) (ty : Z) (vcount icount : N) (file : string) (flp vrm : bool)
    (tex_info : QGTexInfo) (pos size : QGVector2) (t : Texture) :
  Mesh_ctor_default (mkSt m1 w tr) = Mesh_ctor_default (mkSt m2 w tr) /\
  Mesh_ctor this ty vcount icount (mkSt m1 w tr) =
    Mesh_ctor this ty vcount icount (mkSt m2 w tr) /\
  Texture_ctor file flp vrm (mkSt t1 w tr) = Texture_ctor file flp vrm (mkSt t2 w tr) /\
  Texture_ctor_info tex_info (mkSt t1 w tr) = Texture_ctor_info tex_info (mkSt t2 w tr) /\
  Sprite_ctor pos size (Some t) (mkSt s1 w tr) =
    Sprite_ctor pos size (Some t) (mkSt s2 w tr) /\
  Sprite_ctor_contained pos size tex_info (mkSt s1 w tr) =
    Sprite_ctor_contained pos size tex_info (mkSt s2 w tr).
Proof.
  rewrite !Mesh_ctor_run, !Texture_ctor_run, !Texture_ctor_info_run,
    !Sprite_ctor_run, !Sprite_ctor_contained_run.
  repeat split.
Qed.

(** X10: the handle a destructor releases is the one its constructor
    obtained.  When a constructor returns normally and the object is then
    destroyed, the engine sees the create or load call followed by the
    destroy call on [&ir], whose handle is the one that call answered. *)
Theorem destructor_releases_constructed_handle (this : ptr) (ty : Z)
    (vcount icount : N) (file : string) (flp vrm : bool) (tex_info : QGTexInfo)
    (pos size : QGVector2) (t : Texture)
    (stm : St E R Mesh) (stt : St E R Texture) (sts : St E R Sprite) :
  (returns (fst (Mesh_ctor this ty vcount icount stm)) = true ->
   makes_calls (_ ← Mesh_ctor this ty vcount icount; Mesh_dtor this) stm
     [QuickGame_Graphics_Create_Mesh ty vcount icount;
      QuickGame_Graphics_Destroy_Mesh (Mesh_ir_at this)
        (answer (QuickGame_Graphics_Create_Mesh ty vcount icount) (world stm))]) /\
  (returns (fst (Texture_ctor file flp vrm stt)) = true ->
   makes_calls (_ ← Texture_ctor file flp vrm; Texture_dtor this) stt
     [QuickGame_Texture_Load file flp vrm;
      QuickGame_Texture_Destroy (Texture_ir_at this)
        (answer (QuickGame_Texture_Load file flp vrm) (world stt))]) /\
  (returns (fst (Texture_ctor_info tex_info stt)) = true ->
   makes_calls (_ ← Texture_ctor_info tex_info; Texture_dtor this) stt
     [QuickGame_Texture_Load_Alt tex_info;
      QuickGame_Texture_Destroy (Texture_ir_at this)
        (answer (QuickGame_Texture_Load_Alt tex_info) (world stt))]) /\
  (returns (fst (Sprite_ctor pos size (Some t) sts)) = true ->
   makes_calls (_ ← Sprite_ctor pos size (Some t); Sprite_dtor this) sts
     [QuickGame_Sprite_Create pos size (Texture_ir t);
      QuickGame_Sprite_Destroy (Sprite_ir_at this)
        (answer (QuickGame_Sprite_Create pos size (Texture_ir t)) (world sts))]) /\
  (returns (fst (Sprite_ctor_contained pos size tex_info sts)) = true ->
   makes_calls (_ ← Sprite_ctor_contained pos size tex_info; Sprite_dtor this) sts
     [QuickGame_Sprite_Create_Contained (x pos) (y pos) (x size) (y size) tex_info;
      QuickGame_Sprite_Destroy (Sprite_ir_at this)
        (answer (QuickGame_Sprite_Create_Contained (x pos) (y pos) (x size) (y size)
                   tex_info) (world sts))]).
Proof.
  unfold makes_calls, Mesh_dtor.
  rewrite !bind_run, Mesh_ctor_run, Texture_ctor_run, Texture_ctor_info_run,
    Sprite_ctor_run, Sprite_ctor_contained_run.
  cbn zeta. cbn [fst].
  repeat split; intros Hret;
    match type of Hret with
    | returns (if ?b then _ else _) = true =>
        destruct b; [discriminate Hret |]
    end;
    cbv beta iota zeta;
    rewrite ?Mesh_delete_data_run, ?Texture_dtor_run, ?Sprite_dtor_run;
    cbn zeta; cbn [snd obj world trace Mesh_ir Texture_ir Sprite_ir];
    rewrite <- app_assoc; reflexivity.
Qed.

(** X11: on a live handle and an engine whose draw call leaves the sprite
    table alone, [draw] leaves the object's transform and layer in the
    handle's structure and every other sprite structure untouched, and a
    second [draw] changes nothing further in the table: it returns normally
    after a second [QuickGame_Sprite_Draw] call. *)
Theorem Sprite_draw_twice (st : St E R Sprite) (s : QGSprite R) :
  draw_keeps_sprites ->
  Sprite_ir (obj st) <> NULL ->
  sprites (world st) !! Sprite_ir (obj st) = Some s ->
  sprites (world (snd (Sprite_draw st))) !! Sprite_ir (obj st) =
    Some (mkQGSprite (Sprite_transform (obj st)) (Sprite_layer (obj st)) (sprite_rest s)) /\
  (forall p : ptr, p <> Sprite_ir (obj st) ->
     sprites (world (snd (Sprite_draw st))) !! p = sprites (world st) !! p) /\
  fst ((_ ← Sprite_draw; Sprite_draw) st) = Normal tt /\
  sprites (world (snd ((_ ← Sprite_draw; Sprite_draw) st))) =
    sprites (world (snd (Sprite_draw st))) /\
  makes_calls (_ ← Sprite_draw; Sprite_draw) st
    [QuickGame_Sprite_Draw (Sprite_ir (obj st)); QuickGame_Sprite_Draw (Sprite_ir (obj st))].
Proof.
  intros Hkeeps Hheld Hlive.
  assert (sprites (world (snd (Sprite_draw st))) =
          <[Sprite_ir (obj st) :=
              mkQGSprite (Sprite_transform (obj st)) (Sprite_layer (obj st))
                         (sprite_rest s)]> (sprites (world st))) as Hafter.
  { rewrite (Sprite_draw_live st s Hheld Hlive). cbn zeta. cbn [snd world].
    rewrite Hkeeps. reflexivity. }
  split; [rewrite Hafter; apply lookup_insert_eq |].
  split; [intros p Hp; rewrite Hafter; apply lookup_insert_ne; congruence |].
  unfold makes_calls. rewrite bind_run.
  destruct (Sprite_draw st) as [o st1] eqn:Hfirst.
  pose proof (Sprite_draw_live st s Hheld Hlive) as Hrun. cbn zeta in Hrun.
  rewrite Hfirst in Hrun. injection Hrun as -> Hst1.
  cbn [snd] in Hafter.
  assert (obj st1 = obj st) as Hobj by (rewrite Hst1; reflexivity).
  assert (trace st1 = (trace st ++ [QuickGame_Sprite_Draw (Sprite_ir (obj st))])%list)
    as Htrace by (rewrite Hst1; reflexivity).
  assert (Sprite_ir (obj st1) <> NULL) as Hheld1 by (rewrite Hobj; exact Hheld).
  assert (sprites (world st1) !! Sprite_ir (obj st1) =
            Some (mkQGSprite (Sprite_transform (obj st)) (Sprite_layer (obj st))
                             (sprite_rest s))) as Hlive1.
  { rewrite Hobj, Hafter. apply lookup_insert_eq. }
  rewrite (Sprite_draw_live st1 _ Hheld1 Hlive1). cbn zeta.
  cbn [fst snd world trace sprite_rest].
  split; [reflexivity |].
  split.
  - rewrite Hkeeps. unfold with_sprite. cbn [sprites].
    rewrite Hobj, Hafter, insert_insert_eq. reflexivity.
  - rewrite Htrace, Hobj, <- app_assoc. reflexivity.
Qed.

(** X12: a sprite that was just constructed is drawn where it was
    constructed.  When the create call answers a handle whose structure the
    engine has set up, constructor then [draw] store transform
    [{position, 0, size}] and layer 0 in that structure, whatever the engine
    had put there, and the engine sees the create call and then the draw call
    on the new handle. *)
Theorem constructed_sprite_draws_at_position (pos size : QGVector2) (t : Texture)
    (st : St E R Sprite) (s : QGSprite R) :
  answer (QuickGame_Sprite_Create pos size (Texture_ir t)) (world st) <> NULL ->
  sprites (moved (QuickGame_Sprite_Create pos size (Texture_ir t)) (world st))
    !! answer (QuickGame_Sprite_Create pos size (Texture_ir t)) (world st) = Some s ->
  (_ ← Sprite_ctor pos size (Some t); Sprite_draw) st =
  let c := QuickGame_Sprite_Create pos size (Texture_ir t) in
  let h := answer c (world st) in
  let w := moved c (world st) in
  (Normal tt,
   mkSt (mkSprite (mkTransform2D pos 0%Z size) 0%Z (mkColor 0xFFFFFFFF%Z) h)
        (moved (QuickGame_Sprite_Draw h)
           (mkWorld (<[h := mkQGSprite (mkTransform2D pos 0%Z size) 0%Z (sprite_rest s)]>
                       (sprites w))
                    (meshes w) (mem w) (private w)))
        (trace st ++ [c; QuickGame_Sprite_Draw h])).
Proof.
  intros Hheld Hlive. rewrite bind_run, Sprite_ctor_run. cbn zeta.
  apply N.eqb_neq in Hheld. rewrite Hheld. apply N.eqb_neq in Hheld.
  cbv beta iota.
  match goal with |- Sprite_draw ?st1 = _ =>
    rewrite (Sprite_draw_live st1 s Hheld Hlive) end.
  cbn zeta. cbn [obj world trace Sprite_ir Sprite_transform Sprite_layer].
  rewrite <- app_assoc. reflexivity.
Qed.

(** X13: what is used after construction is the constructed handle.  After
    a constructor that returned normally, [Mesh::draw] draws the handle the
    create call answered, [Texture::bind] binds the handle the load call
    answered, and a Sprite constructed from that Texture object passes that
    same handle to [QuickGame_Sprite_Create]. *)
Theorem constructed_handle_is_used (this : ptr) (ty : Z) (vcount icount : N)
    (file : string) (flp vrm : bool) (pos size : QGVector2) (s0 : Sprite)
    (stm : St E R Mesh) (stt : St E R Texture) :
  (returns (fst (Mesh_ctor this ty vcount icount stm)) = true ->
   makes_calls (_ ← Mesh_ctor this ty vcount icount; Mesh_draw) stm
     [QuickGame_Graphics_Create_Mesh ty vcount icount;
      QuickGame_Graphics_Draw_Mesh
        (answer (QuickGame_Graphics_Create_Mesh ty vcount icount) (world stm))]) /\
  (returns (fst (Texture_ctor file flp vrm stt)) = true ->
   makes_calls (_ ← Texture_ctor file flp vrm; Texture_bind) stt
     [QuickGame_Texture_Load file flp vrm;
      QuickGame_Texture_Bind (answer (QuickGame_Texture_Load file flp vrm) (world stt))]) /\
  (returns (fst (Texture_ctor file flp vrm stt)) = true ->
   trace (snd (Sprite_ctor pos size
                 (Some (obj (snd (Texture_ctor file flp vrm stt))))
                 (mkSt s0 (world (snd (Texture_ctor file flp vrm stt)))
                          (trace (snd (Texture_ctor file flp vrm stt)))))) =
   (trace stt ++
    [QuickGame_Texture_Load file flp vrm;
     QuickGame_Sprite_Create pos size
       (answer (QuickGame_Texture_Load file flp vrm) (world stt))])%list).
Proof.
  unfold makes_calls, Mesh_draw, Texture_bind.
  rewrite !bind_run, Mesh_ctor_run, Texture_ctor_run, Sprite_ctor_run.
  cbn zeta. cbn [fst snd obj world trace Texture_ir].
  split; [| split].
  - intros Hret.
    match type of Hret with
    | returns (if ?b then _ else _) = true => destruct b; [discriminate Hret |]
    end.
    cbv beta iota. run. cbn [Mesh_ir]. rewrite <- app_assoc. reflexivity.
  - intros Hret.
    match type of Hret with
    | returns (if ?b then _ else _) = true => destruct b; [discriminate Hret |]
    end.
    cbv beta iota. run. cbn [Texture_ir]. rewrite <- app_assoc. reflexivity.
  - intros _. rewrite <- app_assoc. reflexivity.
Qed.

End Wrappers.

(** ** The wrappers on concrete engines

    The header constants are instantiated as: textured vertices are type 0
    and take 24 bytes, colored ones 16, and [size_t] has 32 bits. *)

Example init_on_working_engine :
  init engine_ok (mkSt tt empty_world []) =
  (Normal tt, mkSt tt empty_world [QuickGame_Init]).
Proof. reflexivity. Qed.

Example init_on_failing_engine :
  init engine_failing (mkSt tt empty_world []) =
  (Throw (runtime_error "Failed to initialize!"), mkSt tt empty_world [QuickGame_Init]).
Proof. reflexivity. Qed.

Example button_pressed_on_working_engine :
  Input_button_pressed engine_ok 0x4000%Z (mkSt tt empty_world []) =
  (Normal true, mkSt tt empty_world [QuickGame_Button_Pressed 0x4000%Z]).
Proof. reflexivity. Qed.

Example Texture_on_failing_engine :
  fst (Texture_ctor engine_failing "player.png" false true
         (mkSt (mkTexture 77) empty_world [])) =
  Throw (runtime_error "Could not load texture!").
Proof. reflexivity. Qed.

Example Sprite_on_failing_engine :
  Sprite_ctor_contained engine_failing at_3_4 unit_size sample_info
    (mkSt sample_sprite empty_world []) =
  (Throw (runtime_error "Could not make sprite!"),
   mkSt (mkSprite (mkTransform2D at_3_4 0%Z unit_size) 0%Z (mkColor 0xFFFFFFFF%Z) NULL)
        empty_world
        [QuickGame_Sprite_Create_Contained 0x40400000%Z 0x40800000%Z
           0x3F800000%Z 0x3F800000%Z sample_info]).
Proof. reflexivity. Qed.

Example Sprite_steps_on_failing_engine :
  steps_of (Sprite_ctor_contained_logged engine_failing at_3_4 unit_size sample_info)
    (mkSt sample_sprite empty_world []) =
  [Store_transform (mkTransform2D at_3_4 0%Z unit_size); Store_layer 0%Z;
   Store_color (mkColor 0xFFFFFFFF%Z);
   Engine_call (QuickGame_Sprite_Create_Contained 0x40400000%Z 0x40800000%Z
                  0x3F800000%Z 0x3F800000%Z sample_info);
   Store_ir NULL].
Proof. reflexivity. Qed.

Example Sprite_dtor_on_working_engine :
  Sprite_dtor engine_ok 500 (mkSt sample_sprite sample_world []) =
  (Normal tt,
   mkSt (mkSprite (Sprite_transform sample_sprite) 2%Z (mkColor 0xFF00FF00%Z) NULL)
        sample_world [QuickGame_Sprite_Destroy (Sprite_ir_at 500) 64]).
Proof. reflexivity. Qed.

(** [add_data] on the sample mesh: one 16-byte colored vertex from address
    3000 and three indices from address 4000. *)
Example add_data_copies_bytes :
  let st' := snd (Mesh_add_data 0%Z 24 16 32 3000 1 4000 3
                    (mkSt (mkMesh 96) sample_world [])) in
  mem (world st') 1000 = Z.of_N (3000 mod 256) /\
  mem (world st') 1015 = Z.of_N (3015 mod 256) /\
  mem (world st') 1016 = Z.of_N (1016 mod 256) /\
  mem (world st') 2000 = Z.of_N (4000 mod 256) /\
  mem (world st') 2005 = Z.of_N (4005 mod 256) /\
  mem (world st') 2006 = Z.of_N (2006 mod 256).
Proof. vm_compute. repeat split. Qed.

(** With 32-bit [size_t] the byte count wraps: 2^28 sixteen-byte vertices
    make a count of 0, and nothing is copied to the data buffer. *)
Example add_data_count_wraps :
  usize_mul 32 (2 ^ 28) 16 = 0 /\
  mem (world (snd (Mesh_add_data 0%Z 24 16 32 3000 (2 ^ 28) 4000 0
                     (mkSt (mkMesh 96) sample_world [])))) 1000 =
  Z.of_N (1000 mod 256).
Proof. vm_compute. split; reflexivity. Qed.

(** [create_mesh] on a mesh that holds a handle goes to the destroy
    function and never to [QuickGame_Graphics_Create_Mesh]; with an engine
    that nulls the handle it then throws. *)
Example create_mesh_on_held_handle :
  Mesh_create_mesh engine_ok 500 1%Z 4 6 (mkSt (mkMesh 96) sample_world []) =
  (Throw (runtime_error "Mesh creation failed!"),
   mkSt (mkMesh NULL) sample_world [QuickGame_Graphics_Destroy_Mesh (Mesh_ir_at 500) 96]) /\
  List.filter is_Create_Mesh
    (trace (snd (Mesh_create_mesh engine_ok 500 1%Z 4 6
                   (mkSt (mkMesh 96) sample_world [])))) = [] /\
  List.filter is_Destroy_Mesh
    (trace (snd (Mesh_create_mesh engine_ok 500 1%Z 4 6
                   (mkSt (mkMesh 96) sample_world [])))) =
    [QuickGame_Graphics_Destroy_Mesh (Mesh_ir_at 500) 96].
Proof. repeat split. Qed.

(** C1, as stated, fails: when [QuickGame_Allocate] answers null,
    [allocate] returns that null pointer and does not throw; when
    [QuickGame_Graphics_Init] answers a negative status, [Graphics::init]
    returns normally. *)
Lemma failed_calls_go_unthrown :
  answer engine_failing (QuickGame_Allocate 16) empty_world = NULL /\
  fst (allocate engine_failing 16 (mkSt tt empty_world [])) = Normal NULL /\
  (answer engine_failing QuickGame_Graphics_Init empty_world < 0)%Z /\
  fst (Graphics_init engine_failing (mkSt tt empty_world [])) = Normal tt.
Proof. repeat split. Qed.

(** C2, as stated, fails: [Mesh()] returns normally and the stored handle
    is null. *)
Lemma Mesh_default_ctor_stores_null :
  returns (fst (Mesh_ctor_default (mkSt (mkMesh 77) empty_world []))) = true /\
  Mesh_ir (obj (snd (Mesh_ctor_default (mkSt (mkMesh 77) empty_world [])))) = NULL.
Proof. split; reflexivity. Qed.

(** C4, as stated, fails: [Mesh::add_data] with non-null pointers on a live
    mesh returns normally and has made no engine call, and neither has
    [Mesh()]. *)
Lemma add_data_makes_no_engine_call :
  fst (Mesh_add_data 0%Z 24 16 32 3000 1 4000 3 (mkSt (mkMesh 96) sample_world [])) =
    Normal tt /\
  trace (snd (Mesh_add_data 0%Z 24 16 32 3000 1 4000 3
                (mkSt (mkMesh 96) sample_world []))) = [] /\
  trace (snd (Mesh_ctor_default (mkSt (mkMesh 77) sample_world []))) = [].
Proof. repeat split. Qed.

(** C9, as stated, fails: on a mesh made by [Mesh()], whose handle is null,
    [add_data] with two non-null pointers does not copy: reading [ir->type]
    is a null dereference, and memory is left as it was. *)
Lemma add_data_without_mesh_copies_nothing :
  (3000 <> NULL /\ 4000 <> NULL) /\
  Mesh_add_data 0%Z 24 16 32 3000 1 4000 3
    (snd (Mesh_ctor_default (mkSt (mkMesh 77) sample_world []))) =
  (Fault, mkSt (mkMesh NULL) sample_world []).
Proof. split; [split; discriminate | reflexivity]. Qed.

(** ** The conditional statements at concrete inputs *)

(** C1 at the failing engine: the negative status of [QuickGame_Init] and
    the null handle of [QuickGame_Texture_Load] are thrown. *)
Lemma checked_wrappers_throw_on_failure_witness :
  ((answer engine_failing QuickGame_Init empty_world < 0)%Z /\
   fst (init engine_failing (mkSt tt empty_world [])) =
     Throw (runtime_error "Failed to initialize!")) /\
  (answer engine_failing (QuickGame_Texture_Load "player.png" false true) empty_world = NULL /\
   fst (Texture_ctor engine_failing "player.png" false true
          (mkSt (mkTexture 77) empty_world [])) =
     Throw (runtime_error "Could not load texture!")).
Proof.
  pose proof (checked_wrappers_throw_on_failure engine_failing
                (mkSt tt empty_world []) (mkSt (mkMesh NULL) empty_world [])
                (mkSt (mkTexture 77) empty_world []) (mkSt sample_sprite empty_world [])
                500 1%Z 4 6 "player.png" false true sample_info at_3_4 unit_size
                (mkTexture 32) 16 4) as (Hinit & _ & _ & Htex & _).
  split; (split; [reflexivity |]).
  - apply Hinit. reflexivity.
  - apply Htex. reflexivity.
Defined.

(** C2 at the working engine, which nulls destroyed handles: a sprite made
    by the constructor holds handle 64, and after destruction null. *)
Lemma handle_lifecycle_witness :
  (forall (r : lvalue) (h : ptr) (w : World unit unit),
     answer engine_ok (QuickGame_Graphics_Destroy_Mesh r h) w = NULL /\
     answer engine_ok (QuickGame_Texture_Destroy r h) w = NULL /\
     answer engine_ok (QuickGame_Sprite_Destroy r h) w = NULL) /\
  returns (fst (Sprite_ctor engine_ok at_3_4 unit_size (Some (mkTexture 32))
                  (mkSt sample_sprite sample_world []))) = true /\
  Sprite_ir (obj (snd (Sprite_ctor engine_ok at_3_4 unit_size (Some (mkTexture 32))
                         (mkSt sample_sprite sample_world [])))) <> NULL /\
  Sprite_ir (obj (snd (Sprite_dtor engine_ok 500 (mkSt sample_sprite sample_world [])))) =
    NULL.
Proof.
  assert (destroy_nulls_handle engine_ok) as Hnulls
    by (intros r h w; repeat split).
  pose proof (handle_lifecycle engine_ok 0%Z 24 16 32
                500 1%Z 4 6 "player.png" false true sample_info at_3_4 unit_size
                (Some (mkTexture 32)) sample_sprite 3000 4000
                (mkSt (mkMesh 96) sample_world []) (mkSt (mkTexture 32) sample_world [])
                (mkSt sample_sprite sample_world []))
    as (_ & _ & _ & Hctor & _ & _ & _ & _ & Hdtor & _).
  split; [exact Hnulls |].
  split; [reflexivity |].
  split; [apply Hctor; reflexivity |].
  apply (Hdtor Hnulls).
Defined.

(** C4 on a mesh without a handle: [create_mesh] makes its one call, to
    [QuickGame_Graphics_Create_Mesh]. *)
Lemma wrapper_engine_calls_witness :
  Mesh_ir (mkMesh NULL) = NULL /\
  trace (snd (Mesh_create_mesh engine_ok 500 1%Z 4 6 (mkSt (mkMesh NULL) sample_world []))) =
    [QuickGame_Graphics_Create_Mesh 1%Z 4 6].
Proof.
  pose proof (wrapper_engine_calls engine_ok 0%Z 24 16 32
                (mkSt tt sample_world []) (mkSt (mkMesh NULL) sample_world [])
                (mkSt (mkTexture 32) sample_world []) (mkSt sample_sprite sample_world [])
                500 1%Z 4 6 "player.png" false true sample_info at_3_4 unit_size
                (mkTexture 32) sample_sprite 3000 4000 0 0 16 4 false true
                (mkColor 0%Z) 0x4000%Z)
    as (_ & _ & _ & (_ & _ & Hcreate & _) & _).
  split; [reflexivity |].
  apply Hcreate. reflexivity.
Defined.

(** C8 on the sample sprite, whose handle 64 designates a sprite structure:
    the structure receives the object's transform and layer, keeps its rest,
    and the one engine call is [QuickGame_Sprite_Draw 64]. *)
Lemma Sprite_draw_spec_witness :
  Sprite_ir sample_sprite <> NULL /\
  sprites sample_world !! Sprite_ir sample_sprite =
    Some (mkQGSprite (mkTransform2D origin 0%Z unit_size) 7%Z tt) /\
  Sprite_draw engine_ok (mkSt sample_sprite sample_world []) =
    (Normal tt,
     mkSt sample_sprite
          (mkWorld (<[64 := mkQGSprite (Sprite_transform sample_sprite) 2%Z tt]>
                      (sprites sample_world))
                   (meshes sample_world) (mem sample_world) tt)
          [QuickGame_Sprite_Draw 64]).
Proof.
  assert (Sprite_ir sample_sprite <> NULL) as Hheld by discriminate.
  assert (sprites sample_world !! Sprite_ir sample_sprite =
            Some (mkQGSprite (mkTransform2D origin 0%Z unit_size) 7%Z tt)) as Hlive
    by reflexivity.
  split; [exact Hheld |]. split; [exact Hlive |].
  exact (proj1 (proj2 (Sprite_draw_spec engine_ok (mkSt sample_sprite sample_world [])))
           _ Hheld Hlive).
Defined.

(** C9 on the sample mesh, handle 96: both pointers are non-null, the mesh
    is live, and [add_data] returns normally with the handle unchanged. *)
Lemma Mesh_add_data_spec_witness :
  (3000 <> NULL /\ 4000 <> NULL) /\
  meshes sample_world !! 96 = Some (mkQGVMesh 1%Z 1000 2000) /\
  fst (Mesh_add_data 0%Z 24 16 32 3000 1 4000 3 (mkSt (mkMesh 96) sample_world [])) =
    Normal tt /\
  mem (world (snd (Mesh_add_data 0%Z 24 16 32 3000 1 4000 3
                     (mkSt (mkMesh 96) sample_world [])))) =
    memcpy 2000 4000 (usize_mul 32 3 sizeof_u16)
      (memcpy 1000 3000 (usize_mul 32 1 16) (mem sample_world)).
Proof.
  assert (3000 <> NULL) as Hv by discriminate.
  assert (4000 <> NULL) as Hi by discriminate.
  assert (meshes sample_world !! 96 = Some (mkQGVMesh 1%Z 1000 2000)) as Hlive
    by reflexivity.
  pose proof (Mesh_add_data_spec 0%Z 24 16 32 3000 1 4000 3
                (mkSt (mkMesh 96) sample_world [])) as (_ & _ & _ & Hcopy).
  destruct (Hcopy _ Hv Hi Hlive) as (Hret & Hmem & _).
  split; [split; assumption |]. split; [exact Hlive |].
  split; [exact Hret | exact Hmem].
Defined.

(** ** The composed operations at concrete inputs *)

(** X1 on the sample mesh, which holds handle 96. *)
Lemma create_mesh_on_held_handle_destroys_witness :
  Mesh_ir (mkMesh 96) <> NULL /\
  trace (snd (Mesh_create_mesh engine_ok 500 1%Z 4 6 (mkSt (mkMesh 96) sample_world []))) =
    [QuickGame_Graphics_Destroy_Mesh (Mesh_ir_at 500) 96] /\
  fst (Mesh_create_mesh engine_ok 500 1%Z 4 6 (mkSt (mkMesh 96) sample_world [])) =
    Throw (runtime_error "Mesh creation failed!").
Proof.
  assert (Mesh_ir (mkMesh 96) <> NULL) as Hheld by discriminate.
  assert (destroy_nulls_handle engine_ok) as Hnulls by (intros r h w; repeat split).
  destruct (create_mesh_on_held_handle_destroys engine_ok 500 1%Z 4 6
              (mkSt (mkMesh 96) sample_world []) Hheld) as (Hcalls & _ & _ & Hthrow).
  split; [exact Hheld |]. split; [exact Hcalls |]. apply (Hthrow Hnulls).
Defined.

(** X2 on the sample mesh: the old handle 96 is destroyed, then the new
    handle 64 is created and stored. *)
Lemma delete_data_then_create_mesh_witness :
  destroy_nulls_handle engine_ok /\
  (_ ← Mesh_delete_data engine_ok 500; Mesh_create_mesh engine_ok 500 1%Z 4 6)
    (mkSt (mkMesh 96) sample_world []) =
  (Normal tt,
   mkSt (mkMesh 64) sample_world
        [QuickGame_Graphics_Destroy_Mesh (Mesh_ir_at 500) 96;
         QuickGame_Graphics_Create_Mesh 1%Z 4 6]).
Proof.
  assert (destroy_nulls_handle engine_ok) as Hnulls by (intros r h w; repeat split).
  split; [exact Hnulls |].
  exact (delete_data_then_create_mesh engine_ok 500 1%Z 4 6
           (mkSt (mkMesh 96) sample_world []) Hnulls).
Defined.

(** X4 on the sample mesh. *)
Lemma delete_data_then_destructor_witness :
  destroy_nulls_handle engine_ok /\
  trace (snd ((_ ← Mesh_delete_data engine_ok 500; Mesh_dtor engine_ok 500)
                (mkSt (mkMesh 96) sample_world []))) =
    [QuickGame_Graphics_Destroy_Mesh (Mesh_ir_at 500) 96;
     QuickGame_Graphics_Destroy_Mesh (Mesh_ir_at 500) NULL].
Proof.
  assert (destroy_nulls_handle engine_ok) as Hnulls by (intros r h w; repeat split).
  split; [exact Hnulls |].
  exact (proj1 (delete_data_then_destructor engine_ok 500
                  (mkSt (mkMesh 96) sample_world []) Hnulls)).
Defined.

(** X5 on the sample mesh: the second byte of the index buffer is the
    second byte at [indices]. *)
Lemma add_data_memory_witness :
  (3000 <> NULL /\ 4000 <> NULL) /\
  meshes sample_world !! 96 = Some (mkQGVMesh 1%Z 1000 2000) /\
  mem (world (snd (Mesh_add_data 0%Z 24 16 32 3000 1 4000 3
                     (mkSt (mkMesh 96) sample_world [])))) (2000 + 1) =
    mem sample_world (4000 + 1).
Proof.
  assert (3000 <> NULL) as Hv by discriminate.
  assert (4000 <> NULL) as Hi by discriminate.
  assert (meshes sample_world !! 96 = Some (mkQGVMesh 1%Z 1000 2000)) as Hlive
    by reflexivity.
  destruct (add_data_memory 0%Z 24 16 32 3000 1 4000 3
              (mkSt (mkMesh 96) sample_world []) _ Hv Hi Hlive) as (Hidx & _).
  split; [split; assumption |]. split; [exact Hlive |].
  apply (Hidx 1); [reflexivity | right; vm_compute; discriminate].
Defined.

(** X6 on the sample mesh. *)
Lemma add_data_of_nothing_witness :
  (3000 <> NULL /\ 4000 <> NULL) /\
  meshes sample_world !! 96 = Some (mkQGVMesh 1%Z 1000 2000) /\
  fst (Mesh_add_data 0%Z 24 16 32 3000 0 4000 0 (mkSt (mkMesh 96) sample_world [])) =
    Normal tt /\
  mem (world (snd (Mesh_add_data 0%Z 24 16 32 3000 0 4000 0
                     (mkSt (mkMesh 96) sample_world [])))) 1000 =
    mem sample_world 1000.
Proof.
  assert (3000 <> NULL) as Hv by discriminate.
  assert (4000 <> NULL) as Hi by discriminate.
  assert (meshes sample_world !! 96 = Some (mkQGVMesh 1%Z 1000 2000)) as Hlive
    by reflexivity.
  destruct (add_data_of_nothing 0%Z 24 16 32 3000 4000
              (mkSt (mkMesh 96) sample_world []) _ Hv Hi Hlive) as (Hret & Hmem).
  split; [split; assumption |]. split; [exact Hlive |].
  split; [exact Hret | apply Hmem].
Defined.

(** X7 on the sample mesh with 32-bit [size_t]: 2^28 colored vertices of
    16 bytes make 2^32 bytes, a count of 0. *)
Lemma add_data_vertex_count_wraps_witness :
  (3000 <> NULL /\ 4000 <> NULL) /\
  meshes sample_world !! 96 = Some (mkQGVMesh 1%Z 1000 2000) /\
  2 ^ 28 * vertex_size 0%Z 24 16 (mkQGVMesh 1%Z 1000 2000) = 1 * 2 ^ 32 /\
  mem (world (snd (Mesh_add_data 0%Z 24 16 32 3000 (2 ^ 28) 4000 3
                     (mkSt (mkMesh 96) sample_world [])))) 1000 =
    memcpy 2000 4000 (usize_mul 32 3 sizeof_u16) (mem sample_world) 1000.
Proof.
  assert (3000 <> NULL) as Hv by discriminate.
  assert (4000 <> NULL) as Hi by discriminate.
  assert (meshes sample_world !! 96 = Some (mkQGVMesh 1%Z 1000 2000)) as Hlive
    by reflexivity.
  assert (2 ^ 28 * vertex_size 0%Z 24 16 (mkQGVMesh 1%Z 1000 2000) = 1 * 2 ^ 32)
    as Hwrap by reflexivity.
  destruct (add_data_vertex_count_wraps 0%Z 24 16 32 3000 (2 ^ 28) 4000 3
              (mkSt (mkMesh 96) sample_world []) _ 1 Hv Hi Hlive Hwrap) as (_ & Hmem).
  split; [split; assumption |]. split; [exact Hlive |].
  split; [exact Hwrap | apply Hmem].
Defined.

(** X8 with a null [indices] on a mesh made by [Mesh()]. *)
Lemma add_data_null_argument_is_atomic_witness :
  (3000 = NULL \/ NULL = NULL) /\
  Mesh_add_data 0%Z 24 16 32 3000 1 NULL 3 (mkSt (mkMesh NULL) sample_world []) =
  (Throw (runtime_error "Mesh data null!"), mkSt (mkMesh NULL) sample_world []).
Proof.
  assert (3000 = NULL \/ NULL = NULL) as Hnull by (right; reflexivity).
  split; [exact Hnull |].
  exact (proj1 (add_data_null_argument_is_atomic 0%Z 24 16 32 3000 1 NULL 3
                  (mkSt (mkMesh NULL) sample_world [])) Hnull).
Defined.

(** X10 for a texture on the working engine. *)
Lemma destructor_releases_constructed_handle_witness :
  returns (fst (Texture_ctor engine_ok "player.png" false true
                  (mkSt (mkTexture 77) sample_world []))) = true /\
  trace (snd ((_ ← Texture_ctor engine_ok "player.png" false true;
               Texture_dtor engine_ok 500)
                (mkSt (mkTexture 77) sample_world []))) =
    [QuickGame_Texture_Load "player.png" false true;
     QuickGame_Texture_Destroy (Texture_ir_at 500) 64].
Proof.
  assert (returns (fst (Texture_ctor engine_ok "player.png" false true
                          (mkSt (mkTexture 77) sample_world []))) = true) as Hret
    by reflexivity.
  destruct (destructor_releases_constructed_handle engine_ok 500 1%Z 4 6
              "player.png" false true sample_info at_3_4 unit_size (mkTexture 32)
              (mkSt (mkMesh 96) sample_world []) (mkSt (mkTexture 77) sample_world [])
              (mkSt sample_sprite sample_world [])) as (_ & Htex & _).
  split; [exact Hret | exact (Htex Hret)].
Defined.

(** X11 on the sample sprite: the working engine does not touch the world. *)
Lemma Sprite_draw_twice_witness :
  draw_keeps_sprites engine_ok /\
  Sprite_ir sample_sprite <> NULL /\
  sprites sample_world !! Sprite_ir sample_sprite =
    Some (mkQGSprite (mkTransform2D origin 0%Z unit_size) 7%Z tt) /\
  sprites (world (snd (Sprite_draw engine_ok (mkSt sample_sprite sample_world []))))
    !! Sprite_ir sample_sprite =
    Some (mkQGSprite (Sprite_transform sample_sprite) 2%Z tt) /\
  trace (snd ((_ ← Sprite_draw engine_ok; Sprite_draw engine_ok)
                (mkSt sample_sprite sample_world []))) =
    [QuickGame_Sprite_Draw 64; QuickGame_Sprite_Draw 64].
Proof.
  assert (draw_keeps_sprites engine_ok) as Hkeeps by (intros p w; reflexivity).
  assert (Sprite_ir sample_sprite <> NULL) as Hheld by discriminate.
  assert (sprites sample_world !! Sprite_ir sample_sprite =
            Some (mkQGSprite (mkTransform2D origin 0%Z unit_size) 7%Z tt)) as Hlive
    by reflexivity.
  destruct (Sprite_draw_twice engine_ok (mkSt sample_sprite sample_world []) _
              Hkeeps Hheld Hlive) as (Hstored & _ & _ & _ & Hcalls).
  split; [exact Hkeeps |]. split; [exact Hheld |]. split; [exact Hlive |].
  split; [exact Hstored | exact Hcalls].
Defined.

(** X12 on the working engine, whose create call answers handle 64, where
    the sample world has a sprite structure. *)
Lemma constructed_sprite_draws_at_position_witness :
  answer engine_ok (QuickGame_Sprite_Create at_3_4 unit_size 32) sample_world <> NULL /\
  sprites (moved engine_ok (QuickGame_Sprite_Create at_3_4 unit_size 32) sample_world)
    !! answer engine_ok (QuickGame_Sprite_Create at_3_4 unit_size 32) sample_world =
    Some (mkQGSprite (mkTransform2D origin 0%Z unit_size) 7%Z tt) /\
  (_ ← Sprite_ctor engine_ok at_3_4 unit_size (Some (mkTexture 32));
   Sprite_draw engine_ok) (mkSt sample_sprite sample_world []) =
  (Normal tt,
   mkSt (mkSprite (mkTransform2D at_3_4 0%Z unit_size) 0%Z (mkColor 0xFFFFFFFF%Z) 64)
        (mkWorld (<[64 := mkQGSprite (mkTransform2D at_3_4 0%Z unit_size) 0%Z tt]>
                    (sprites sample_world))
                 (meshes sample_world) (mem sample_world) tt)
        [QuickGame_Sprite_Create at_3_4 unit_size 32; QuickGame_Sprite_Draw 64]).
Proof.
  assert (answer engine_ok (QuickGame_Sprite_Create at_3_4 unit_size 32) sample_world
            <> NULL) as Hheld by discriminate.
  assert (sprites (moved engine_ok (QuickGame_Sprite_Create at_3_4 unit_size 32)
                     sample_world)
            !! answer engine_ok (QuickGame_Sprite_Create at_3_4 unit_size 32) sample_world =
            Some (mkQGSprite (mkTransform2D origin 0%Z unit_size) 7%Z tt)) as Hlive
    by reflexivity.
  split; [exact Hheld |]. split; [exact Hlive |].
  exact (constructed_sprite_draws_at_position engine_ok at_3_4 unit_size (mkTexture 32)
           (mkSt sample_sprite sample_world []) _ Hheld Hlive).
Defined.

(** X13 on the working engine: the mesh drawn is the mesh created. *)
Lemma constructed_handle_is_used_witness :
  returns (fst (Mesh_ctor engine_ok 500 1%Z 4 6 (mkSt (mkMesh 77) sample_world []))) =
    true /\
  trace (snd ((_ ← Mesh_ctor engine_ok 500 1%Z 4 6; Mesh_draw engine_ok)
                (mkSt (mkMesh 77) sample_world []))) =
    [QuickGame_Graphics_Create_Mesh 1%Z 4 6; QuickGame_Graphics_Draw_Mesh 64].
Proof.
  assert (returns (fst (Mesh_ctor engine_ok 500 1%Z 4 6
                          (mkSt (mkMesh 77) sample_world []))) = true) as Hret
    by reflexivity.
  destruct (constructed_handle_is_used engine_ok 500 1%Z 4 6 "player.png" false true
              at_3_4 unit_size sample_sprite (mkSt (mkMesh 77) sample_world [])
              (mkSt (mkTexture 77) sample_world [])) as (Hmesh & _).
  split; [exact Hret | exact (Hmesh Hret)].
Defined.
